(** * m4b-joiner: chapter timeline, manifest and metadata of [m4b-joiner.py]

    A shallow embedding of [src/m4b-joiner.py].  Python [str] values are
    [string]s whose characters are code points below 256; integers are [Z];
    [float] is the binary64 of [PrimFloat].  The file system, standard output
    and the two external tools (ffprobe, ffmpeg) are explicit: the program is
    a function of its arguments and an environment, threaded through a small
    state-and-exception monad.  [os.path] is [posixpath].  The interpreter's
    parsing of a [str] into a [float] or an [int] is a parameter of the
    script; an f-string is kept as the list of its pieces, so that no
    rendering of a float or of an exception is assumed. *)

From Stdlib Require Import ZArith String Ascii List Bool Lia.
From Stdlib Require Import Floats.PrimFloat Floats.FloatOps Floats.SpecFloat.
From stdpp Require Import base option list gmap strings pretty.

Local Open Scope Z_scope.

(** ** Python string primitives used by the script *)

Module Py.

Definition LF : ascii := ascii_of_nat 10.
Definition BACKSLASH : ascii := ascii_of_nat 92.
Definition QUOTE : ascii := ascii_of_nat 39.
Definition NL : string := String LF EmptyString.
Definition DQ : string := String (ascii_of_nat 34) EmptyString.

(** [str.isspace] on one character, for code points below 256:
    TAB..CR, FS..US, SPACE, NEL and NBSP. *)
Definition is_space (c : ascii) : bool :=
  let n := nat_of_ascii c in
  ((9 <=? n) && (n <=? 13) || (28 <=? n) && (n <=? 32)
   || (n =? 133) || (n =? 160))%nat.

Fixpoint lstrip (s : string) : string :=
  match s with
  | EmptyString => EmptyString
  | String c s' => if is_space c then lstrip s' else s
  end.

Definition is_empty (s : string) : bool :=
  match s with EmptyString => true | _ => false end.

Fixpoint rstrip (s : string) : string :=
  match s with
  | EmptyString => EmptyString
  | String c s' =>
      let r := rstrip s' in
      if is_space c && is_empty r then EmptyString else String c r
  end.

(** [s.strip()] *)
Definition strip (s : string) : string := rstrip (lstrip s).

(** [new] put before every character and at the end: what
    [s.replace('', new)] gives. *)
Fixpoint interleave (new s : string) : string :=
  match s with
  | EmptyString => new
  | String c s' => new +:+ String c (interleave new s')
  end.

(** Left-to-right scan for non-overlapping occurrences of a non-empty
    [old]; [skip] counts the characters of a match still to be dropped. *)
Fixpoint replace_from (old new : string) (skip : nat) (s : string) : string :=
  match s with
  | EmptyString => EmptyString
  | String c s' =>
      match skip with
      | S k => replace_from old new k s'
      | O =>
          if String.prefix old s
          then new +:+ replace_from old new (String.length old - 1) s'
          else String c (replace_from old new 0 s')
      end
  end.

(** [s.replace(old, new)] *)
Definition replace (old new s : string) : string :=
  if is_empty old then interleave new s else replace_from old new 0 s.

(** Scan of [s.split(sep)] for a non-empty [sep]: the part up to the next
    separator, and the parts after it. *)
Fixpoint split_from (sep : string) (skip : nat) (s : string)
  : string * list string :=
  match s with
  | EmptyString => (EmptyString, [])
  | String c s' =>
      match skip with
      | S k => split_from sep k s'
      | O =>
          if String.prefix sep s
          then (EmptyString,
                let '(p, ps) := split_from sep (String.length sep - 1) s' in
                p :: ps)
          else let '(p, ps) := split_from sep 0 s' in (String c p, ps)
      end
  end.

(** [s.split(sep)], [sep] non-empty (Python raises [ValueError] on an empty
    separator; the script never passes one). *)
Definition split (sep s : string) : list string :=
  let '(p, ps) := split_from sep 0 s in p :: ps.

(** [f.readlines()] on text read in universal-newlines mode: lines keep
    their terminating newline. *)
Fixpoint readlines (s : string) : list string :=
  match s with
  | EmptyString => []
  | String c s' =>
      if Ascii.eqb c LF then String c EmptyString :: readlines s'
      else match readlines s' with
           | [] => [String c EmptyString]
           | l :: ls => String c l :: ls
           end
  end.

Definition startswith_char (c : ascii) (s : string) : bool :=
  match s with
  | String d _ => Ascii.eqb c d
  | EmptyString => false
  end.

Fixpoint endswith_char (c : ascii) (s : string) : bool :=
  match s with
  | EmptyString => false
  | String d EmptyString => Ascii.eqb c d
  | String _ s' => endswith_char c s'
  end.

(** [os.path.join(a, b)] of [posixpath]. *)
Definition path_join (a b : string) : string :=
  if startswith_char "/"%char b then b
  else if is_empty a || endswith_char "/"%char a then a +:+ b
  else a +:+ "/" +:+ b.

(** [s.rfind(c)]: the index of the last [c], or -1. *)
Fixpoint rfind_from (c : ascii) (i : Z) (s : string) : Z :=
  match s with
  | EmptyString => -1
  | String d s' =>
      let r := rfind_from c (i + 1) s' in
      if (0 <=? r) then r else if Ascii.eqb c d then i else -1
  end.
Definition rfind (c : ascii) (s : string) : Z := rfind_from c 0 s.

Definition take (n : Z) (s : string) : string :=
  String.substring 0 (Z.to_nat n) s.
Definition drop (n : Z) (s : string) : string :=
  String.substring (Z.to_nat n) (String.length s - Z.to_nat n) s.

(** The loop of [genericpath._splitext] that skips leading dots of the
    file name: [true] when a character other than the dot stands in
    [filenameIndex, dotIndex). *)
Fixpoint has_non_dot (s : string) (from : nat) (count : nat) : bool :=
  match count with
  | O => false
  | S k =>
      match String.get from s with
      | Some d => if Ascii.eqb d "."%char then has_non_dot s (S from) k else true
      | None => true
      end
  end.

(** [os.path.splitext(p)] of [posixpath]. *)
Definition splitext (p : string) : string * string :=
  let sepIndex := rfind "/"%char p in
  let dotIndex := rfind "."%char p in
  if (sepIndex <? dotIndex)
     && has_non_dot p (Z.to_nat (sepIndex + 1))
                      (Z.to_nat (dotIndex - (sepIndex + 1)))
  then (take dotIndex p, drop dotIndex p)
  else (p, EmptyString).

(** [str(n)] for an [int]. *)
Definition str_of_int (n : Z) : string := pretty n.

End Py.

(** ** [escape_metadata] *)

Definition escape_metadata (text : string) : string :=
  let text := Py.replace "\" "\\" text in
  let text := Py.replace "=" "\=" text in
  let text := Py.replace ";" "\;" text in
  let text := Py.replace "#" "\#" text in
  text.


(** The non-blank lines of the order file, stripped:
    [[line.strip() for line in lines if line.strip()]]. *)
Definition valid_lines (lines : list string) : list string :=
  map Py.strip (List.filter (fun line => negb (Py.is_empty (Py.strip line))) lines).

(** ** Exceptions, results and the run-time conversions *)

(** The exception classes the script can meet. [SystemExit] is the only one
    that is not a subclass of [Exception]. *)
Inductive exn :=
| SystemExit (code : Z)
| CalledProcessError (returncode : Z)
| JSONDecodeError
| ValueError
| KeyError
| TypeError
| IndexError
| AttributeError
| OverflowError
| OSError.

Definition is_Exception (e : exn) : bool :=
  match e with SystemExit _ => false | _ => true end.

Inductive Res (A : Type) :=
| Ok (a : A)
| Raise (e : exn).
Arguments Ok {A} a.
Arguments Raise {A} e.

Global Instance Res_ret : MRet Res := fun A a => Ok a.
Global Instance Res_bind : MBind Res := fun A B k r =>
  match r with Ok a => k a | Raise e => Raise e end.

(** What [json.loads] returns. *)
#[warnings="-register-all"]
Inductive json :=
| JNull
| JBool (b : bool)
| JInt (n : Z)
| JFloat (x : float)
| JStr (s : string)
| JList (xs : list json)
| JDict (kvs : list (string * json)).

Fixpoint assoc {V} (k : string) (kvs : list (string * V)) : option V :=
  match kvs with
  | [] => None
  | (k', v) :: rest => if String.eqb k k' then Some v else assoc k rest
  end.

(** [obj[key]] for a string key. *)
Definition getitem (obj : json) (key : string) : Res json :=
  match obj with
  | JDict kvs => match assoc key kvs with Some v => Ok v | None => Raise KeyError end
  | _ => Raise TypeError
  end.

(** [obj[0]]. A dict from JSON has only string keys. *)
Definition getitem0 (obj : json) : Res json :=
  match obj with
  | JList (x :: _) => Ok x
  | JList [] => Raise IndexError
  | JStr (String c _) => Ok (JStr (String c EmptyString))
  | JStr EmptyString => Raise IndexError
  | JDict _ => Raise KeyError
  | _ => Raise TypeError
  end.

(** [obj.get(key)] *)
Definition dict_get (obj : json) (key : string) : Res json :=
  match obj with
  | JDict kvs => Ok (default JNull (assoc key kvs))
  | _ => Raise AttributeError
  end.

(** Truth value of a Python object. *)
Definition truthy (v : json) : bool :=
  match v with
  | JNull => false
  | JBool b => b
  | JInt n => negb (n =? 0)
  | JFloat x => negb (PrimFloat.eqb x 0%float)
  | JStr s => negb (Py.is_empty s)
  | JList xs => match xs with [] => false | _ => true end
  | JDict kvs => match kvs with [] => false | _ => true end
  end.

(** [int(x)] for a float: truncation toward zero. *)
Definition int_of_float (x : float) : Res Z :=
  match Prim2SF x with
  | S754_zero _ => Ok 0
  | S754_infinity _ => Raise OverflowError
  | S754_nan => Raise ValueError
  | S754_finite s m e =>
      let a := Z.shiftl (Z.pos m) e in
      Ok (if s then - a else a)
  end.

(** [float(n)] for an int: the nearest binary64, [OverflowError] beyond. *)
Definition float_of_int (n : Z) : Res float :=
  match binary_normalize prec emax n 0 false with
  | S754_infinity _ => Raise OverflowError
  | sf => Ok (SF2Prim sf)
  end.

(** [round(x)] of Python for a float: the nearest integer, ties to even.
    Not used by the script; it is what the word "round" denotes. *)
Definition round_half_even (x : float) : Res Z :=
  match Prim2SF x with
  | S754_zero _ => Ok 0
  | S754_infinity _ => Raise OverflowError
  | S754_nan => Raise ValueError
  | S754_finite s m e =>
      let a :=
        if 0 <=? e then Z.shiftl (Z.pos m) e
        else
          let d := Z.shiftl 1 (- e) in
          let q := Z.pos m / d in
          let r := Z.pos m mod d in
          match Z.compare (2 * r) d with
          | Lt => q
          | Gt => q + 1
          | Eq => if Z.even q then q else q + 1
          end in
      Ok (if s then - a else a)
  end.

Record AudioInfo := mkInfo {
  duration : float;
  sample_rate : Z;
  channels : Z
}.

Record Chapter := mkChapter {
  title : string;
  start : Z;
  end_ : Z
}.

(** One formatted value of an f-string, kept unrendered. *)
Inductive frag :=
| FStr (s : string)
| FInt (n : Z)
| FFloat (x : float)
| FExn (e : exn).

(** What reaches standard output: a [print] call, or one rendering of the
    progress bar ([ProgressBar.print_progress]). *)
Inductive output :=
| Print (fs : list frag)
| Progress (iteration total : nat).

(** What the script changes: the regular files (path to text; paths are
    compared as written), what was printed, oldest first, and the command
    lines of the muxer runs. *)
Record World := mkWorld {
  files : gmap string string;
  stdout : list output;
  joins : list (list string)
}.

(** What [check_dependencies] finds: both tools run, one is not on the
    PATH, or one is found and fails to run. *)
Inductive tools := ToolsOk | ToolsMissing | ToolsBroken.

(** A finished [subprocess.run] of ffprobe: its return code and what
    [json.loads] makes of its output ([None]: [JSONDecodeError]). *)
Record proc := mkProc {
  returncode : Z;
  stdout_json : option json
}.

(** The part of the machine the script only reads: the state of the two
    tools, the directories, the paths [open] refuses ([OSError]), what
    ffprobe answers for a path, and what ffmpeg does for a command line on
    the files it finds (its return code and the files it leaves). *)
Record Env := mkEnv {
  env_tools : tools;
  env_isdir : string -> bool;
  env_denied : string -> bool;
  env_ffprobe : string -> proc;
  env_ffmpeg : list string -> gmap string string -> Z * gmap string string
}.

(** The parsed command line. *)
Record Args := mkArgs {
  input_dir : string;
  order_file : string;
  output_file : string;
  verbose : bool;
  cover : option string
}.

(** State and exceptions. *)
Definition M (A : Type) : Type := World -> Res A * World.

Global Instance M_ret : MRet M := fun A a w => (Ok a, w).
Global Instance M_bind : MBind M := fun A B k m w =>
  match m w with
  | (Ok a, w') => k a w'
  | (Raise e, w') => (Raise e, w')
  end.

Definition raise {A} (e : exn) : M A := fun w => (Raise e, w).
Definition lift {A} (r : Res A) : M A := fun w => (r, w).

(** [try: body  except <classes handled by h> as e: h e] *)
Definition try_except {A} (body : M A) (h : exn -> option (M A)) : M A :=
  fun w =>
    match body w with
    | (Ok a, w') => (Ok a, w')
    | (Raise e, w') =>
        match h e with
        | Some k => k w'
        | None => (Raise e, w')
        end
    end.

(** [try: body  finally: fin] *)
Definition try_finally {A} (body : M A) (fin : M unit) : M A :=
  fun w =>
    let '(r, w') := body w in
    match fin w' with
    | (Ok _, w'') => (r, w'')
    | (Raise e, w'') => (Raise e, w'')
    end.

Definition print (fs : list frag) : M unit :=
  fun w => (Ok (), mkWorld (files w) (stdout w ++ [Print fs]) (joins w)).

Definition sys_exit {A} (code : Z) : M A := raise (SystemExit code).

Definition isfile (path : string) : M bool :=
  fun w => (Ok (bool_decide (is_Some (files w !! path))), w).

Definition write (path text : string) : M unit :=
  fun w =>
    (Ok (), mkWorld (<[path := default EmptyString (files w !! path) +:+ text]> (files w))
                    (stdout w) (joins w)).

Definition remove (path : string) : M unit :=
  fun w => (Ok (), mkWorld (delete path (files w)) (stdout w) (joins w)).

(** The exit status of the process for what [main] ends with. *)
Definition exit_status {A} (r : Res A) : Z :=
  match r with
  | Ok _ => 0
  | Raise (SystemExit code) => code
  | Raise _ => 1
  end.


(** ** Notions the properties are stated with *)

(** The reader of a serialized value, as the metadata format defines it: a
    backslash makes the character after it literal. It is what "un-escaping"
    means for a [title=] line; the script itself never reads the artifact. *)
Fixpoint unescape_metadata (s : string) : string :=
  match s with
  | EmptyString => EmptyString
  | String c s' =>
      if Ascii.eqb c Py.BACKSLASH then
        match s' with
        | EmptyString => EmptyString
        | String d s'' => String d (unescape_metadata s'')
        end
      else String c (unescape_metadata s')
  end.

(** The characters the format reserves. *)
Definition reserved (c : ascii) : bool :=
  Ascii.eqb c Py.BACKSLASH || Ascii.eqb c "="%char
  || Ascii.eqb c ";"%char || Ascii.eqb c "#"%char.

(** Escaping read character by character: a backslash before each reserved
    character, every other character unchanged. *)
Fixpoint escape_chars (s : string) : string :=
  match s with
  | EmptyString => EmptyString
  | String c s' =>
      if reserved c then String Py.BACKSLASH (String c (escape_chars s'))
      else String c (escape_chars s')
  end.

(** Replacement of one character by a string, character by character. *)
Fixpoint subst_char (c : ascii) (new s : string) : string :=
  match s with
  | EmptyString => EmptyString
  | String d s' =>
      if Ascii.eqb c d then new +:+ subst_char c new s'
      else String d (subst_char c new s')
  end.

(** The four replacements of [escape_metadata], each read character by
    character. *)
Definition escape_subst (s : string) : string :=
  subst_char "#" "\#" (subst_char ";" "\;" (subst_char "=" "\=" (subst_char Py.BACKSLASH "\\" s))).

(** The text of a line up to its first [|] (the whole line when it has
    none), and the text after that first [|]. *)
Fixpoint before_bar (s : string) : string :=
  match s with
  | EmptyString => EmptyString
  | String c s' => if Ascii.eqb "|"%char c then EmptyString else String c (before_bar s')
  end.

Fixpoint after_bar (s : string) : option string :=
  match s with
  | EmptyString => None
  | String c s' => if Ascii.eqb "|"%char c then Some s' else after_bar s'
  end.

(** A [print] of the skipped-file warning. *)
Definition is_warning (o : output) : bool :=
  match o with
  | Print (FStr s :: _) => String.prefix (Py.NL +:+ "Warning:") s
  | _ => false
  end.

Definition warnings (out : list output) : nat :=
  length (List.filter is_warning out).

(** The timeline invariant: the first chapter starts at 0 and every chapter
    ends where the next one starts. *)
Definition contiguous (cs : list Chapter) : Prop :=
  (forall c, cs !! 0%nat = Some c -> start c = 0)
  /\ (forall i c1 c2, cs !! i = Some c1 -> cs !! S i = Some c2 -> end_ c1 = start c2).

(** The position of the cursor after the chapters [cs]. *)
Definition cursor (cs : list Chapter) : Z :=
  match last cs with
  | Some c => end_ c
  | None => 0
  end.

(** The validation of [validate], as a pure check. *)
Definition compatible (info : AudioInfo) (analysis_ref : option AudioInfo)
  : option AudioInfo :=
  match analysis_ref with
  | None => Some info
  | Some ref =>
      if (sample_rate info =? sample_rate ref) && (channels info =? channels ref)
      then Some ref else None
  end.

(** A path with every backslash turned into a slash, character by
    character. *)
Fixpoint slashes (s : string) : string :=
  match s with
  | EmptyString => EmptyString
  | String c s' =>
      String (if Ascii.eqb Py.BACKSLASH c then "/"%char else c) (slashes s')
  end.

Fixpoint count_char (c : ascii) (s : string) : nat :=
  match s with
  | EmptyString => 0
  | String d s' => (if Ascii.eqb c d then 1 else 0) + count_char c s'
  end.

(** A line of the order file that [str.strip] empties. *)
Definition blank (line : string) : Prop := Py.strip line = EmptyString.


(** ** Sample inputs

    One input directory [in] with a few probed files and several order
    files, used by the examples that close the development. *)

Definition sample_float_of_str (s : string) : option float :=
  assoc s [("10.000000", 10%float); ("2.000000", 2%float); ("7.000000", 7%float);
           ("3.000000", 3%float); ("0.000000", 0%float);
           ("1.001000", 0x1.004189374bc6ap+0%float)].

Definition sample_int_of_str (s : string) : option Z :=
  assoc s [("44100", 44100); ("48000", 48000)].

(** The JSON ffprobe prints for a file with one audio stream. *)
Definition probed (duration rate : string) (channels : Z) : proc :=
  mkProc 0 (Some (JDict
    [("programs", JList []);
     ("streams", JList [JDict [("sample_rate", JStr rate); ("channels", JInt channels)]]);
     ("format", JDict [("duration", JStr duration)])])).

(** The JSON ffprobe prints for a file without audio stream. *)
Definition probed_silent (duration : string) : proc :=
  mkProc 0 (Some (JDict
    [("programs", JList []);
     ("streams", JList []);
     ("format", JDict [("duration", JStr duration)])])).

Definition sample_ffprobe (path : string) : proc :=
  default (mkProc 1 None)
    (assoc path
       [("in/a.mp3", probed "10.000000" "44100" 1);
        ("in/b.mp3", probed "2.000000" "44100" 1);
        ("in/c.mp3", probed "7.000000" "44100" 1);
        ("in/d.mp3", probed "1.001000" "44100" 1);
        ("in/e.mp3", probed "0.000000" "44100" 1);
        ("in/f.mp3", probed "2.000000" "48000" 1);
        ("in/g.mp3", probed_silent "3.000000");
        ("in/it's.mp3", probed "7.000000" "44100" 1)]).

(** A muxer that exits with [rc] and writes the two artifacts it was given,
    one after the other, to [out.m4b]. *)
Definition sample_ffmpeg (rc : Z) (cmd : list string) (fs : gmap string string)
  : Z * gmap string string :=
  (rc, <["out.m4b" := default EmptyString (fs !! "in/files_to_concat.txt")
                      +:+ default EmptyString (fs !! "in/metadata.txt")]> fs).

Definition sample_env (rc : Z) : Env :=
  mkEnv ToolsOk (String.eqb "in") (fun _ => false) sample_ffprobe (sample_ffmpeg rc).

Definition text_of (lines : list string) : string :=
  fold_right (fun l s => l +:+ Py.NL +:+ s) EmptyString lines.

Definition sample_files : gmap string string :=
  list_to_map
    [("in/a.mp3", "A"); ("in/b.mp3", "B"); ("in/c.mp3", "C"); ("in/d.mp3", "D");
     ("in/e.mp3", "E"); ("in/f.mp3", "F"); ("in/g.mp3", "G"); ("in/it's.mp3", "I");
     ("three.txt", text_of ["a.mp3"; "b.mp3|Two"; "c.mp3"]);
     ("five.txt", text_of ["a.mp3"; "b.mp3"; "zz.mp3"; "c.mp3"; "d.mp3"]);
     ("blank.txt", text_of [EmptyString; "  "; String (ascii_of_nat 9) EmptyString]);
     ("rates.txt", text_of ["a.mp3"; "f.mp3"]);
     ("zero.txt", text_of ["e.mp3"]);
     ("odd.txt", text_of ["d.mp3"]);
     ("quote.txt", text_of ["it's.mp3|It's"]);
     ("silent.txt", text_of ["a.mp3"; "g.mp3"])].

Definition sample_world : World := mkWorld sample_files [] [].

Definition sample_args (order : string) : Args :=
  mkArgs "in" order "out.m4b" false None.

(** The value of a result, [d] when it is an exception. *)
Definition value {A} (d : A) (r : Res A) : A :=
  match r with Ok a => a | Raise _ => d end.

(** The non-blank lines of the sample order file [order]. *)
Definition sample_lines (order : string) : list string :=
  valid_lines (Py.readlines (default EmptyString (sample_files !! order))).
(** ** The script *)

Section Script.

(** [float(s)] and [int(s)] of the interpreter for a [str] argument:
    [None] stands for [ValueError]. *)
Variable float_of_str : string -> option float.
Variable int_of_str : string -> option Z.

Variable env : Env.

(** [float(v)] *)
Definition py_float (v : json) : Res float :=
  match v with
  | JFloat x => Ok x
  | JInt n => float_of_int n
  | JBool b => Ok (if b then 1%float else 0%float)
  | JStr s => match float_of_str s with Some x => Ok x | None => Raise ValueError end
  | _ => Raise TypeError
  end.

(** [int(v)] *)
Definition py_int (v : json) : Res Z :=
  match v with
  | JInt n => Ok n
  | JFloat x => int_of_float x
  | JBool b => Ok (if b then 1 else 0)
  | JStr s => match int_of_str s with Some n => Ok n | None => Raise ValueError end
  | _ => Raise TypeError
  end.

Definition print_install_help : M unit :=
  print [FStr "Please install ffmpeg (static build) and ensure executable is in PATH."];;
  print [FStr "  - Windows: https://www.gyan.dev/ffmpeg/builds/ (ffmpeg-git-full.7z)"];;
  print [FStr "  - Linux: sudo apt install ffmpeg"];;
  print [FStr "  - macOS: brew install ffmpeg"].

Definition check_dependencies : M unit :=
  match env_tools env with
  | ToolsMissing =>
      print [FStr "Error: ffmpeg or ffprobe not found in system PATH."];;
      print_install_help;;
      sys_exit 1
  | ToolsBroken =>
      print [FStr "Error: ffmpeg or ffprobe was found but failed to run."];;
      print [FStr "This often happens if you downloaded a 'shared' build but are missing the DLLs."];;
      print [FStr "Please download a 'static' or 'full' build."];;
      print_install_help;;
      sys_exit 1
  | ToolsOk => mret ()
  end.

(** The [try] block of [get_file_info]. *)
Definition probe (file_path : string) : Res AudioInfo :=
  let result := env_ffprobe env file_path in
  if negb (returncode result =? 0) then Raise (CalledProcessError (returncode result))
  else
    match stdout_json result with
    | None => Raise JSONDecodeError
    | Some data =>
        format ← getitem data "format";
        d ← getitem format "duration";
        duration ← py_float d;
        streams ← dict_get data "streams";
        if negb (truthy streams) then Raise ValueError
        else
          streams ← getitem data "streams";
          stream ← getitem0 streams;
          sr ← getitem stream "sample_rate";
          sample_rate ← py_int sr;
          ch ← getitem stream "channels";
          channels ← py_int ch;
          Ok (mkInfo duration sample_rate channels)
    end.

Definition get_file_info (file_path : string) : M AudioInfo :=
  try_except (lift (probe file_path)) (fun e =>
    match e with
    | CalledProcessError _ =>
        Some (print [FStr "Error getting info for "; FStr file_path; FStr ": "; FExn e];;
              sys_exit 1)
    | ValueError | KeyError | JSONDecodeError =>
        Some (print [FStr "Error parsing info for "; FStr file_path; FStr ": "; FExn e];;
              sys_exit 1)
    | _ => None
    end).

Definition print_verbose (msg : list frag) (verbose : bool) : M unit :=
  if verbose then print (FStr "[VERBOSE] " :: msg) else mret ().

Definition print_progress (total iteration : nat) : M unit :=
  fun w => (Ok (), mkWorld (files w) (stdout w ++ [Progress iteration total]) (joins w)).

Variable args : Args.

Definition concat_list_path : string :=
  Py.path_join (input_dir args) "files_to_concat.txt".
Definition metadata_path : string :=
  Py.path_join (input_dir args) "metadata.txt".

(** The variables the loop over the order lines updates. *)
Record Loop := mkLoop {
  current_time_ns : Z;
  analysis_ref : option AudioInfo;
  chapters : list Chapter
}.

Definition parse_line (line : string) : string * string :=
  let parts := Py.split "|" line in
  let filename := Py.strip (nth 0 parts EmptyString) in
  let chapter_title :=
    if (1 <? length parts)%nat then Py.strip (nth 1 parts EmptyString)
    else fst (Py.splitext filename) in
  (filename, chapter_title).

Definition warning (filename : string) : list frag :=
  [FStr (Py.NL +:+ "Warning: File '"); FStr filename;
   FStr "' not found in input directory. Skipping."].

(** The validation of one probed file against the reference parameters. *)
Definition validate (filename : string) (info : AudioInfo)
    (analysis_ref : option AudioInfo) : M AudioInfo :=
  match analysis_ref with
  | None =>
      print_verbose [FStr "Reference parameters set: "; FInt (sample_rate info);
                     FStr "Hz, "; FInt (channels info); FStr " channels"]
                    (verbose args);;
      mret info
  | Some ref =>
      if negb (sample_rate info =? sample_rate ref) then
        print [FStr (Py.NL +:+ "Error: Sample rate mismatch in '"); FStr filename; FStr "'."];;
        print [FStr "Expected "; FInt (sample_rate ref); FStr "Hz, found ";
               FInt (sample_rate info); FStr "Hz."];;
        print [FStr "All input files must have the same sample rate."];;
        sys_exit 1
      else if negb (channels info =? channels ref) then
        print [FStr (Py.NL +:+ "Error: Channel count mismatch in '"); FStr filename; FStr "'."];;
        print [FStr "Expected "; FInt (channels ref); FStr " channels, found ";
               FInt (channels info); FStr " channels."];;
        print [FStr "All input files must have the same channel count."];;
        sys_exit 1
      else mret ref
  end.

Definition duration_ns (info : AudioInfo) : Res Z :=
  int_of_float (duration info * 1000000000)%float.

Definition manifest_line (file_path : string) : string :=
  let safe_path := Py.replace "\" "/" file_path in
  "file '" +:+ safe_path +:+ "'" +:+ Py.NL.

(** The body of the loop for [line] at index [i]. *)
Definition process_line (total i : nat) (line : string) (st : Loop) : M Loop :=
  let '(filename, chapter_title) := parse_line line in
  let file_path := Py.path_join (input_dir args) filename in
  found ← isfile file_path;
  if negb found then
    print (warning filename);;
    mret st
  else
    print_verbose [FStr "Analyzing: "; FStr filename] (verbose args);;
    info ← get_file_info file_path;
    print_verbose [FStr "  Duration: "; FFloat (duration info); FStr "s, Rate: ";
                   FInt (sample_rate info); FStr "Hz"] (verbose args);;
    ref ← validate filename info (analysis_ref st);
    d_ns ← lift (duration_ns info);
    let start_time := current_time_ns st in
    let end_time := current_time_ns st + d_ns in
    write concat_list_path (manifest_line file_path);;
    print_progress total (i + 1);;
    mret (mkLoop end_time (Some ref)
                 (chapters st ++ [mkChapter chapter_title start_time end_time])).

Fixpoint for_lines (total i : nat) (lines : list string) (st : Loop) : M Loop :=
  match lines with
  | [] => mret st
  | line :: rest =>
      st' ← process_line total i line st;
      for_lines total (S i) rest st'
  end.


(** [with open(path, 'w')]: the file is created or truncated. *)
Definition open_w (path : string) : M unit :=
  fun w =>
    if env_denied env path then (Raise OSError, w)
    else (Ok (), mkWorld (<[path := EmptyString]> (files w)) (stdout w) (joins w)).

(** [open(path, 'r').readlines()] *)
Definition read_lines (path : string) : M (list string) :=
  fun w =>
    if env_denied env path then (Raise OSError, w)
    else match files w !! path with
         | Some text => (Ok (Py.readlines text), w)
         | None => (Raise OSError, w)
         end.

Definition exists_ (path : string) : M bool :=
  fun w => (Ok (bool_decide (is_Some (files w !! path)) || env_isdir env path), w).

(** [os.remove(path)] *)
Definition os_remove (path : string) : M unit :=
  fun w =>
    match files w !! path with
    | Some _ => remove path w
    | None => (Raise OSError, w)
    end.

(** [subprocess.run(cmd, check=True)] for the muxer. *)
Definition run_ffmpeg (cmd : list string) : M unit :=
  fun w =>
    let '(rc, files') := env_ffmpeg env cmd (files w) in
    let w' := mkWorld files' (stdout w) (joins w ++ [cmd]) in
    if rc =? 0 then (Ok (), w') else (Raise (CalledProcessError rc), w').

Definition write_chapter (path : string) (chapter : Chapter) : M unit :=
  write path ("[CHAPTER]" +:+ Py.NL);;
  write path ("TIMEBASE=1/1000000000" +:+ Py.NL);;
  write path ("START=" +:+ Py.str_of_int (start chapter) +:+ Py.NL);;
  write path ("END=" +:+ Py.str_of_int (end_ chapter) +:+ Py.NL);;
  write path ("title=" +:+ escape_metadata (title chapter) +:+ Py.NL).

Fixpoint write_chapters (path : string) (chapters : list Chapter) : M unit :=
  match chapters with
  | [] => mret ()
  | chapter :: rest => write_chapter path chapter;; write_chapters path rest
  end.

(** The truth value of [args.cover]: given and not empty. *)
Definition cover_image_path : option string :=
  match cover args with
  | Some p => if Py.is_empty p then None else Some p
  | None => None
  end.

Definition ffmpeg_cmd : list string :=
  ["ffmpeg"; "-f"; "concat"; "-safe"; "0"; "-i"; concat_list_path; "-i"; metadata_path]
  ++ match cover_image_path with Some p => ["-i"; p] | None => [] end
  ++ ["-map_metadata"; "1"; "-c"; "copy"; "-map"; "0:a"]
  ++ match cover_image_path with
     | Some _ => ["-map"; "2:v"; "-c:v"; "copy"; "-disposition:v:0"; "attached_pic";
                  "-metadata:s:v"; "title=" +:+ Py.DQ +:+ "Album cover" +:+ Py.DQ;
                  "-metadata:s:v"; "comment=" +:+ Py.DQ +:+ "Cover (front)" +:+ Py.DQ]
     | None => []
     end
  ++ ["-f"; "mp4"; "-y"; output_file args].

Definition when (b : bool) (m : M unit) : M unit := if b then m else mret ().

(** [except Exception as e: h e] *)
Definition except_Exception {A} (h : exn -> M A) (e : exn) : option (M A) :=
  if is_Exception e then Some (h e) else None.

(** Everything [main] does after the order file has been read. *)
Definition join_files (chapters : list Chapter) : M unit :=
  print [FStr "Generating metadata file..."];;
  open_w metadata_path;;
  write metadata_path (";FFMETADATA1" +:+ Py.NL);;
  write_chapters metadata_path chapters;;
  print [FStr "Joining files..."];;
  match cover_image_path with
  | Some p => print [FStr "Embedding cover image: "; FStr p]
  | None => mret ()
  end;;
  try_finally
    (try_except
       (run_ffmpeg ffmpeg_cmd;;
        print [FStr "Success! Output saved to: "; FStr (output_file args)])
       (fun e =>
          match e with
          | CalledProcessError _ => Some (print [FStr "Error running ffmpeg: "; FExn e])
          | _ => None
          end))
    (e1 ← exists_ concat_list_path;
     when e1 (os_remove concat_list_path);;
     e2 ← exists_ metadata_path;
     when e2 (os_remove metadata_path)).

(** The loop over the order lines, inside its [with] and [try]. *)
Definition analyze (lines : list string) : M Loop :=
  try_except
    (open_w concat_list_path;;
     for_lines (length lines) 0 lines (mkLoop 0 None []))
    (except_Exception (fun e =>
       print [FStr (Py.NL +:+ "Error processing files: "); FExn e];;
       sys_exit 1)).

Definition main : M unit :=
  check_dependencies;;
  when (negb (env_isdir env (input_dir args)))
       (print [FStr "Error: Input directory '"; FStr (input_dir args); FStr "' does not exist."];;
        sys_exit 1);;
  found ← isfile (order_file args);
  when (negb found)
       (print [FStr "Error: Order file '"; FStr (order_file args); FStr "' does not exist."];;
        sys_exit 1);;
  match cover_image_path with
  | Some p =>
      found ← isfile p;
      when (negb found)
           (print [FStr "Error: Cover image '"; FStr p; FStr "' not found."];;
            sys_exit 1)
  | None => mret ()
  end;;
  print [FStr "Reading order file and analyzing audio files..."];;
  lines ← try_except (read_lines (order_file args))
            (except_Exception (fun e =>
               print [FStr "Error reading order file: "; FExn e];;
               sys_exit 1));
  let valid_lines := valid_lines lines in
  let total_files := length valid_lines in
  print [FStr "Found "; FInt (Z.of_nat total_files); FStr " files to process."];;
  st ← analyze valid_lines;
  when (bool_decide (chapters st = []))
       (print [FStr "No valid files found to process."];;
        sys_exit 1);;
  join_files (chapters st).

(** ** Outcomes of the loop *)

Definition line_path (line : string) : string :=
  Py.path_join (input_dir args) (parse_line line).1.

(** A result that is a value or an exception of class [Exception]. *)
Definition no_exit {A} (r : Res A) : Prop :=
  match r with
  | Ok _ => True
  | Raise e => is_Exception e = true
  end.

(** The world after [out] has been printed. *)
Definition emit (out : list output) (w : World) : World :=
  mkWorld (files w) (stdout w ++ out) (joins w).

(** The three outcomes of one turn of the loop, for [line] met in state
    [st] and world [w]. *)
Inductive step_result (line : string) (st : Loop) (w : World)
  : Res Loop -> World -> Prop :=
| step_skip :
    files w !! line_path line = None ->
    step_result line st w (Ok st) (emit [Print (warning (parse_line line).1)] w)
| step_add (info ref : AudioInfo) (d : Z) (out : list output) :
    is_Some (files w !! line_path line) ->
    probe (line_path line) = Ok info ->
    compatible info (analysis_ref st) = Some ref ->
    duration_ns info = Ok d ->
    warnings out = 0%nat ->
    step_result line st w
      (Ok (mkLoop (current_time_ns st + d) (Some ref)
             (chapters st ++ [mkChapter (parse_line line).2 (current_time_ns st)
                                        (current_time_ns st + d)])))
      (mkWorld (<[concat_list_path :=
                    default EmptyString (files w !! concat_list_path)
                    +:+ manifest_line (line_path line)]> (files w))
               (stdout w ++ out) (joins w))
| step_fail (e : exn) (out : list output) :
    is_Some (files w !! line_path line) ->
    e = SystemExit 1 \/ is_Exception e = true ->
    step_result line st w (Raise e) (emit out w).



(** What the loop leaves after the lines [lines], from state [st] and world
    [w]: every turn succeeds, or the first failing turn ends the loop. *)
Inductive run_result (st : Loop) (w : World)
  : list string -> Res Loop -> World -> Prop :=
| run_nil : run_result st w [] (Ok st) w
| run_cons (line : string) (rest : list string) (st1 : Loop) (w1 : World)
    (r : Res Loop) (w2 : World) :
    step_result line st w (Ok st1) w1 ->
    run_result st1 w1 rest r w2 ->
    run_result st w (line :: rest) r w2
| run_fail (line : string) (rest : list string) (e : exn) (w1 : World) :
    step_result line st w (Raise e) w1 ->
    run_result st w (line :: rest) (Raise e) w1.

(** The timeline invariant of the loop: the chapters are contiguous and
    the cursor stands at the end of the last one. *)
Definition timeline (st : Loop) : Prop :=
  contiguous (chapters st) /\ cursor (chapters st) = current_time_ns st.

(** Whether the file an order line names is a regular file of [fs]. *)
Definition on_disk (fs : gmap string string) (line : string) : bool :=
  bool_decide (is_Some (fs !! line_path line)).

(** The manifest text for the lines [lines], one line per file. *)
Fixpoint manifest_of (lines : list string) : string :=
  match lines with
  | [] => EmptyString
  | line :: rest => manifest_line (line_path line) +:+ manifest_of rest
  end.

Definition same_files (fs1 fs2 : gmap string string) : Prop :=
  forall p, is_Some (fs1 !! p) <-> is_Some (fs2 !! p).

(** The chapters the loop builds for the files [lines] (those on disk),
    with the cursor at [cur] before and at the last index after: each file's
    chapter starts at the cursor and ends [duration_ns] later. *)
Inductive built : Z -> list string -> list Chapter -> Z -> Prop :=
| built_nil (cur : Z) : built cur [] [] cur
| built_cons (cur : Z) (line : string) (rest : list string)
    (info : AudioInfo) (d : Z) (cs : list Chapter) (cur' : Z) :
    probe (line_path line) = Ok info ->
    duration_ns info = Ok d ->
    built (cur + d) rest cs cur' ->
    built cur (line :: rest)
          (mkChapter (parse_line line).2 cur (cur + d) :: cs) cur'.

(** The state and the world in which the loop starts. *)
Definition loop_start : Loop := mkLoop 0 None [].
Definition opened (w : World) : World :=
  mkWorld (<[concat_list_path := EmptyString]> (files w)) (stdout w) (joins w).

(** The checks of [main] before it reads the order file, and the read
    itself, as one test. *)
Definition preflight (w : World) : bool :=
  match env_tools env with ToolsOk => true | _ => false end
  && env_isdir env (input_dir args)
  && bool_decide (is_Some (files w !! order_file args))
  && match cover_image_path with
     | Some p => bool_decide (is_Some (files w !! p))
     | None => true
     end
  && negb (env_denied env (order_file args)).

(** What [main] prints between the checks and the loop, for [n] lines. *)
Definition banner (n : nat) : list output :=
  [Print [FStr "Reading order file and analyzing audio files..."];
   Print [FStr "Found "; FInt (Z.of_nat n); FStr " files to process."]].

(** [main] from the loop on, for the non-blank lines [lines]. *)
Definition pipeline (lines : list string) : M unit :=
  st ← analyze lines;
  when (bool_decide (chapters st = []))
       (print [FStr "No valid files found to process."];;
        sys_exit 1);;
  join_files (chapters st).

(** The [finally] block of [main]. *)
Definition cleanup : M unit :=
  e1 ← exists_ concat_list_path;
  when e1 (os_remove concat_list_path);;
  e2 ← exists_ metadata_path;
  when e2 (os_remove metadata_path).

(** ** The progress bar and the metadata text *)

(** [s * n] for a [str] and an [int]: empty when [n] is not positive. *)
Definition str_mul (s : string) (n : Z) : string :=
  Nat.iter (Z.to_nat n) (String.append s) EmptyString.

(** The attributes [ProgressBar.__init__] stores, with [total] and [length]
    the [int]s that [main] passes. *)
Record ProgressBar := mkProgressBar {
  pb_total : Z;
  pb_prefix : string;
  pb_suffix : string;
  pb_decimals : Z;
  pb_length : Z;
  pb_fill : string;
  pb_printEnd : string
}.

(** [int(self.length * self.iteration // self.total)] *)
Definition filledLength (pb : ProgressBar) (iteration : Z) : Z :=
  (pb_length pb * iteration) / pb_total pb.

(** What [print_progress] computes besides the percentage: the bar, and
    whether the closing [print()] follows ([iteration == total]). [None] is
    the [ZeroDivisionError] of the division by [float(self.total)]. The text
    of the percentage, a formatted float, is left out. *)
Definition progress_bar (pb : ProgressBar) (iteration : Z) : option (string * bool) :=
  if pb_total pb =? 0 then None
  else
    let filled := filledLength pb iteration in
    let bar := str_mul (pb_fill pb) filled +:+ str_mul "-" (pb_length pb - filled) in
    Some (bar, iteration =? pb_total pb).

(** The bar [main] creates for [total_files] lines, with a fill character
    [fill] ([ProgressBar(total_files, prefix='Processing:',
    suffix='Complete', length=40)]). *)
Definition main_progress_bar (total_files : nat) (fill : string) : ProgressBar :=
  mkProgressBar (Z.of_nat total_files) "Processing:" "Complete" 1 40 fill
                (String (ascii_of_nat 13) EmptyString).

(** The lines [main] writes for one chapter, and the whole metadata file. *)
Definition chapter_block (chapter : Chapter) : string :=
  "[CHAPTER]" +:+ Py.NL
  +:+ "TIMEBASE=1/1000000000" +:+ Py.NL
  +:+ "START=" +:+ Py.str_of_int (start chapter) +:+ Py.NL
  +:+ "END=" +:+ Py.str_of_int (end_ chapter) +:+ Py.NL
  +:+ "title=" +:+ escape_metadata (title chapter) +:+ Py.NL.

Fixpoint chapter_blocks (chapters : list Chapter) : string :=
  match chapters with
  | [] => EmptyString
  | chapter :: rest => chapter_block chapter +:+ chapter_blocks rest
  end.

Definition metadata_text (chapters : list Chapter) : string :=
  ";FFMETADATA1" +:+ Py.NL +:+ chapter_blocks chapters.

(** The sum of the lengths of the chapters. *)
Definition total_length (cs : list Chapter) : Z :=
  fold_right (fun c acc => (end_ c - start c) + acc) 0 cs.

(** A probed file whose sample rate and channel count are those of [ref]. *)
Definition matches (ref : AudioInfo) (line : string) : Prop :=
  exists info,
    probe (line_path line) = Ok info
    /\ sample_rate info = sample_rate ref
    /\ channels info = channels ref.

(** A string without reserved character. *)
Fixpoint plain (s : string) : bool :=
  match s with
  | EmptyString => true
  | String c s' => negb (reserved c) && plain s'
  end.

(** Second sample directory: [s.mp3] is stereo, the others mono; [h.mp3]
    makes ffprobe fail. *)
Definition sample_ffprobe2 (path : string) : proc :=
  default (mkProc 1 None)
    (assoc path
       [("in/a.mp3", probed "10.000000" "44100" 1);
        ("in/s.mp3", probed "2.000000" "44100" 2)]).

Definition sample_env2 : Env :=
  mkEnv ToolsOk (String.eqb "in") (fun _ => false) sample_ffprobe2 (sample_ffmpeg 0).

Definition sample_files2 : gmap string string :=
  list_to_map
    [("in/a.mp3", "A"); ("in/s.mp3", "S"); ("in/h.mp3", "H");
     ("in/metadata.txt", "old notes");
     ("stereo.txt", text_of ["a.mp3"; "s.mp3"]);
     ("broken.txt", text_of ["a.mp3"; "h.mp3"]);
     ("one.txt", text_of ["a.mp3| Intro = 1 "])].

Definition sample_world2 : World := mkWorld sample_files2 [] [].

(** The line [main] prints after the muxer returned [rc]. *)
Definition mux_report (rc : Z) : list frag :=
  if rc =? 0 then [FStr "Success! Output saved to: "; FStr (output_file args)]
  else [FStr "Error running ffmpeg: "; FExn (CalledProcessError rc)].

(** The renderings of the progress bar among [out] are for the turn of
    index [i] of [total]. *)
Definition progress_at (total i : nat) (o : output) : Prop :=
  match o with
  | Progress iteration t => iteration = (i + 1)%nat /\ t = total
  | Print _ => True
  end.

(** The renderings of the progress bar among [out] are for a turn between
    [lo], excluded, and [hi], included, of [total]. *)
Definition progress_between (total lo hi : nat) (o : output) : Prop :=
  match o with
  | Progress iteration t => (lo < iteration <= hi)%nat /\ t = total
  | Print _ => True
  end.

(** From [w] to [w'] standard output has only grown, by outputs that
    satisfy [P]. *)
Definition grows (P : output -> Prop) (w w' : World) : Prop :=
  exists out, stdout w' = stdout w ++ out /\ Forall P out.

(** The first sample directory, where [open] refuses the path [path]. *)
Definition sample_env_denied (path : string) : Env :=
  mkEnv ToolsOk (String.eqb "in") (String.eqb path) sample_ffprobe (sample_ffmpeg 0).
(** ** Strings *)

Lemma prefix_char (c d : ascii) (s : string) :
  String.prefix (String c EmptyString) (String d s) = Ascii.eqb c d.
Proof.
  simpl. destruct (ascii_dec c d) as [->|Hne].
  - rewrite Ascii.eqb_refl. now destruct s.
  - symmetry. now apply Ascii.eqb_neq.
Qed.

Lemma replace_char (c : ascii) (new s : string) :
  Py.replace (String c EmptyString) new s = subst_char c new s.
Proof.
  unfold Py.replace. cbn [Py.is_empty].
  induction s as [|d s IH]; [reflexivity|].
  cbn [Py.replace_from subst_char]. rewrite prefix_char.
  cbn [String.length Nat.sub]. rewrite IH. reflexivity.
Qed.

Lemma app_nil (b : string) : EmptyString +:+ b = b.
Proof. reflexivity. Qed.

Lemma app_cons (x : ascii) (a b : string) : String x a +:+ b = String x (a +:+ b).
Proof. reflexivity. Qed.

Lemma string_app_nil_r (a : string) : a +:+ EmptyString = a.
Proof. induction a as [|x a IH]; [reflexivity|]. now rewrite app_cons, IH. Qed.

Lemma string_app_assoc (a b c : string) : (a +:+ b) +:+ c = a +:+ (b +:+ c).
Proof. induction a as [|x a IH]; [reflexivity|]. rewrite !app_cons. now rewrite IH. Qed.

Lemma subst_char_app (c : ascii) (new a b : string) :
  subst_char c new (a +:+ b) = subst_char c new a +:+ subst_char c new b.
Proof.
  induction a as [|d a IH]; [reflexivity|].
  rewrite app_cons. cbn [subst_char].
  destruct (Ascii.eqb c d); rewrite IH; [|reflexivity].
  symmetry. apply string_app_assoc.
Qed.

Lemma subst_char_other (c d : ascii) (new s : string) :
  c <> d -> subst_char c new (String d s) = String d (subst_char c new s).
Proof. intros H. simpl. apply Ascii.eqb_neq in H. now rewrite H. Qed.

Lemma escape_metadata_subst (s : string) : escape_metadata s = escape_subst s.
Proof.
  unfold escape_metadata, escape_subst.
  change "\"%string with (String Py.BACKSLASH EmptyString).
  change "="%string with (String "="%char EmptyString).
  change ";"%string with (String ";"%char EmptyString).
  change "#"%string with (String "#"%char EmptyString).
  now rewrite !replace_char.
Qed.

Lemma escape_subst_cons (c : ascii) (s : string) :
  escape_subst (String c s) =
  (if reserved c then String Py.BACKSLASH (String c EmptyString) else String c EmptyString)
  +:+ escape_subst s.
Proof.
  unfold escape_subst, reserved.
  change (String c s) with (String c EmptyString +:+ s).
  rewrite !subst_char_app. f_equal.
  destruct (Ascii.eqb_spec c Py.BACKSLASH) as [->|H1]; [reflexivity|].
  destruct (Ascii.eqb_spec c "="%char) as [->|H2]; [reflexivity|].
  destruct (Ascii.eqb_spec c ";"%char) as [->|H3]; [reflexivity|].
  destruct (Ascii.eqb_spec c "#"%char) as [->|H4]; [reflexivity|].
  rewrite !subst_char_other by congruence. reflexivity.
Qed.

Lemma escape_metadata_chars (s : string) : escape_metadata s = escape_chars s.
Proof.
  rewrite escape_metadata_subst.
  induction s as [|c s IH]; [reflexivity|].
  rewrite escape_subst_cons, IH. cbn [escape_chars]. now destruct (reserved c).
Qed.

Lemma unescape_escape_chars (s : string) : unescape_metadata (escape_chars s) = s.
Proof.
  induction s as [|c s IH]; [reflexivity|].
  simpl. destruct (reserved c) eqn:Hr.
  - simpl. now rewrite IH.
  - simpl. unfold reserved in Hr.
    destruct (Ascii.eqb c Py.BACKSLASH); [discriminate|]. now rewrite IH.
Qed.


Example escape_metadata_reserved :
  escape_metadata "a=b;c#d\e" = "a\=b\;c\#d\\e".
Proof. vm_compute. reflexivity. Qed.

Example split_bars : Py.split "|" "a.mp3|Part|One" = ["a.mp3"; "Part"; "One"].
Proof. vm_compute. reflexivity. Qed.

Example splitext_hidden : Py.splitext "dir.d/.hidden" = ("dir.d/.hidden", EmptyString).
Proof. vm_compute. reflexivity. Qed.

Example splitext_last_dot : Py.splitext "a/b.tar.gz" = ("a/b.tar", ".gz").
Proof. vm_compute. reflexivity. Qed.

Example strip_both_ends : Py.strip "  a b  " = "a b".
Proof. vm_compute. reflexivity. Qed.

Example str_of_int_sign : Py.str_of_int (-120) = "-120" /\ Py.str_of_int 0 = "0".
Proof. vm_compute. split; reflexivity. Qed.

Example int_of_float_truncates :
  int_of_float (-2.5)%float = Ok (-2) /\ round_half_even (-2.5)%float = Ok (-2)
  /\ int_of_float 3.5%float = Ok 3 /\ round_half_even 3.5%float = Ok 4.
Proof. vm_compute. repeat split; reflexivity. Qed.

(** ** Order lines *)

Lemma split_from_bar (s : string) :
  Py.split_from "|" 0 s
  = (before_bar s, from_option (Py.split "|") [] (after_bar s)).
Proof.
  induction s as [|c s IH]; [reflexivity|].
  cbn [Py.split_from before_bar after_bar].
  change "|"%string with (String "|"%char EmptyString).
  rewrite prefix_char. cbn [String.length Nat.sub].
  destruct (Ascii.eqb "|"%char c); [reflexivity|].
  change (String "|"%char EmptyString) with "|"%string in IH.
  change (String "|"%char EmptyString) with "|"%string.
  now rewrite IH.
Qed.

Lemma split_bar (s : string) :
  Py.split "|" s = before_bar s :: from_option (Py.split "|") [] (after_bar s).
Proof. unfold Py.split at 1. now rewrite split_from_bar. Qed.

Lemma parse_line_bar (line : string) :
  parse_line line =
  (Py.strip (before_bar line),
   match after_bar line with
   | Some rest => Py.strip (before_bar rest)
   | None => (Py.splitext (Py.strip (before_bar line))).1
   end).
Proof.
  unfold parse_line. rewrite split_bar.
  destruct (after_bar line) as [rest|]; [|reflexivity].
  cbn [from_option]. now rewrite split_bar.
Qed.

(** ** One turn of the loop *)

Lemma world_eta (w : World) : mkWorld (files w) (stdout w) (joins w) = w.
Proof. now destruct w. Qed.

Lemma emit_nil (w : World) : emit [] w = w.
Proof. destruct w. unfold emit. cbn. now rewrite app_nil_r. Qed.

Lemma emit_emit (o1 o2 : list output) (w : World) :
  emit o2 (emit o1 w) = emit (o1 ++ o2) w.
Proof. unfold emit. cbn. now rewrite app_assoc. Qed.

Lemma warnings_app (a b : list output) :
  warnings (a ++ b) = (warnings a + warnings b)%nat.
Proof. unfold warnings. now rewrite List.filter_app, length_app. Qed.

Lemma print_run (fs : list frag) (w : World) :
  print fs w = (Ok (), emit [Print fs] w).
Proof. reflexivity. Qed.

Lemma print_verbose_run (msg : list frag) (v : bool) (w : World) :
  exists out, warnings out = 0%nat /\ print_verbose msg v w = (Ok (), emit out w).
Proof.
  destruct v.
  - exists [Print (FStr "[VERBOSE] " :: msg)]. split; reflexivity.
  - exists []. split; [reflexivity|]. cbn. now rewrite emit_nil.
Qed.

Lemma no_exit_bind {A B} (r : Res A) (k : A -> Res B) :
  no_exit r -> (forall a, no_exit (k a)) -> no_exit (r ≫= k).
Proof. destruct r as [a|e]; cbn; auto. Qed.

Lemma getitem_no_exit (obj : json) (key : string) : no_exit (getitem obj key).
Proof. destruct obj; cbn; auto. now destruct (assoc key kvs). Qed.

Lemma getitem0_no_exit (obj : json) : no_exit (getitem0 obj).
Proof. destruct obj as [| | | |[|]|[|]|]; cbn; auto. Qed.

Lemma dict_get_no_exit (obj : json) (key : string) : no_exit (dict_get obj key).
Proof. destruct obj; cbn; auto. Qed.

Lemma int_of_float_no_exit (x : float) : no_exit (int_of_float x).
Proof. unfold int_of_float. destruct (Prim2SF x); cbn; auto. Qed.

Lemma float_of_int_no_exit (n : Z) : no_exit (float_of_int n).
Proof. unfold float_of_int. destruct (binary_normalize _ _ _ _ _); cbn; auto. Qed.

Lemma py_float_no_exit (v : json) : no_exit (py_float v).
Proof.
  destruct v; cbn; auto using float_of_int_no_exit.
  now destruct (float_of_str s).
Qed.

Lemma py_int_no_exit (v : json) : no_exit (py_int v).
Proof.
  destruct v; cbn; auto using int_of_float_no_exit.
  now destruct (int_of_str s).
Qed.

Lemma probe_no_exit (path : string) : no_exit (probe path).
Proof.
  unfold probe.
  destruct (negb _); [reflexivity|].
  destruct (stdout_json _) as [data|]; [|reflexivity].
  repeat (apply no_exit_bind;
          [auto using getitem_no_exit, getitem0_no_exit, dict_get_no_exit,
                      py_float_no_exit, py_int_no_exit | intros ?]).
  destruct (negb _); [reflexivity|].
  repeat (apply no_exit_bind;
          [auto using getitem_no_exit, getitem0_no_exit, dict_get_no_exit,
                      py_float_no_exit, py_int_no_exit | intros ?]).
  exact I.
Qed.

Lemma get_file_info_run (path : string) (w : World) :
  (exists info, probe path = Ok info /\ get_file_info path w = (Ok info, w))
  \/ (exists e out, (e = SystemExit 1 \/ is_Exception e = true)
                    /\ (forall info, probe path <> Ok info)
                    /\ get_file_info path w = (Raise e, emit out w)).
Proof.
  unfold get_file_info, try_except, lift.
  pose proof (probe_no_exit path) as Hne.
  destruct (probe path) as [info|e]; [left; eauto|right].
  destruct e; try discriminate Hne;
    try (eexists (SystemExit 1), [_];
         split; [left; reflexivity | split; [discriminate | reflexivity]]);
    try done;
    match goal with
    | |- context [Raise ?x <> _] =>
        exists x, []; rewrite emit_nil;
        split; [right; reflexivity | split; [discriminate | reflexivity]]
    end.
Qed.

Lemma validate_run (filename : string) (info : AudioInfo) (r : option AudioInfo) (w : World) :
  exists out,
    match compatible info r with
    | Some ref => warnings out = 0%nat /\ validate filename info r w = (Ok ref, emit out w)
    | None => validate filename info r w = (Raise (SystemExit 1), emit out w)
    end.
Proof.
  unfold validate, compatible. destruct r as [ref|].
  - destruct (sample_rate info =? sample_rate ref); cbn [negb andb].
    + destruct (channels info =? channels ref); cbn [negb].
      * exists []. rewrite emit_nil. split; reflexivity.
      * eexists [_; _; _]. unfold mbind, M_bind, print, sys_exit, raise, emit.
        cbn. rewrite <- !app_assoc. reflexivity.
    + eexists [_; _; _]. unfold mbind, M_bind, print, sys_exit, raise, emit.
      cbn. rewrite <- !app_assoc. reflexivity.
  - destruct (print_verbose_run
      [FStr "Reference parameters set: "; FInt (sample_rate info);
       FStr "Hz, "; FInt (channels info); FStr " channels"] (verbose args) w)
      as (out & Hw & Hr).
    exists out. split; [exact Hw|].
    unfold mbind, M_bind. now rewrite Hr.
Qed.

Lemma bind_run {A B} (m : M A) (k : A -> M B) (w : World) :
  (m ≫= k) w =
  match m w with
  | (Ok a, w') => k a w'
  | (Raise e, w') => (Raise e, w')
  end.
Proof. reflexivity. Qed.

Lemma isfile_run (path : string) (w : World) :
  isfile path w = (Ok (bool_decide (is_Some (files w !! path))), w).
Proof. reflexivity. Qed.

Lemma lift_run {A} (r : Res A) (w : World) : lift r w = (r, w).
Proof. reflexivity. Qed.

Lemma write_run (path text : string) (w : World) :
  write path text w
  = (Ok (), mkWorld (<[path := default EmptyString (files w !! path) +:+ text]> (files w))
                    (stdout w) (joins w)).
Proof. reflexivity. Qed.

Lemma print_progress_run (total iteration : nat) (w : World) :
  print_progress total iteration w = (Ok (), emit [Progress iteration total] w).
Proof. reflexivity. Qed.

Lemma process_line_step total i line st w :
  step_result line st w (process_line total i line st w).1
                        (process_line total i line st w).2.
Proof.
  unfold process_line.
  pose proof (eq_refl : line_path line = Py.path_join (input_dir args) (parse_line line).1) as Hpath.
  destruct (parse_line line) as [filename chapter_title] eqn:Hp.
  cbn [fst snd] in *. rewrite <- Hpath. clear Hpath.
  rewrite bind_run, isfile_run.
  destruct (bool_decide (is_Some (files w !! line_path line))) eqn:Hfile; cbn [negb].
  2:{ rewrite bind_run, print_run. cbn [fst snd mret M_ret].
      apply bool_decide_eq_false in Hfile.
      replace filename with (parse_line line).1 by now rewrite Hp.
      apply step_skip. now apply eq_None_not_Some. }
  apply bool_decide_eq_true in Hfile.
  rewrite bind_run.
  destruct (print_verbose_run [FStr "Analyzing: "; FStr filename] (verbose args) w)
    as (o1 & W1 & ->).
  rewrite bind_run.
  destruct (get_file_info_run (line_path line) (emit o1 w))
    as [(info & Hprobe & ->) | (e & o2 & He & _ & ->)].
  2:{ cbn [fst snd]. rewrite emit_emit. now apply step_fail. }
  rewrite bind_run.
  destruct (print_verbose_run
    [FStr "  Duration: "; FFloat (duration info); FStr "s, Rate: ";
     FInt (sample_rate info); FStr "Hz"] (verbose args) (emit o1 w))
    as (o2 & W2 & ->).
  rewrite emit_emit, bind_run.
  destruct (validate_run filename info (analysis_ref st) (emit (o1 ++ o2) w)) as (o3 & Hv).
  destruct (compatible info (analysis_ref st)) as [ref|] eqn:Hc.
  2:{ rewrite Hv. cbn [fst snd]. rewrite emit_emit. apply step_fail; auto. }
  destruct Hv as (W3 & ->). rewrite emit_emit, bind_run, lift_run.
  destruct (duration_ns info) as [d|e] eqn:Hd.
  2:{ cbn [fst snd]. apply step_fail; [done|].
      right. pose proof (int_of_float_no_exit (duration info * 1000000000)%float) as Hne.
      unfold duration_ns in Hd. now rewrite Hd in Hne. }
  rewrite bind_run, write_run, bind_run, print_progress_run.
  cbn [mret M_ret fst snd]. unfold emit. cbn [files stdout joins].
  replace chapter_title with (parse_line line).2 by now rewrite Hp.
  rewrite <- (app_assoc _ _ [Progress (i + 1) total]).
  eapply (step_add line st w info ref d); eauto.
  rewrite !warnings_app, W1, W2, W3. reflexivity.
Qed.

(** ** The whole loop *)

Lemma for_lines_run total (lines : list string) : forall i st w,
  run_result st w lines (for_lines total i lines st w).1
                        (for_lines total i lines st w).2.
Proof.
  induction lines as [|line rest IH]; intros i st w; [apply run_nil|].
  cbn [for_lines]. rewrite bind_run.
  pose proof (process_line_step total i line st w) as Hs.
  destruct (process_line total i line st w) as [[st1|e] w1]; cbn [fst snd] in Hs.
  - eapply run_cons; [exact Hs | apply IH].
  - now apply run_fail.
Qed.

Lemma contiguous_nil : contiguous [].
Proof. split; intros *; now rewrite lookup_nil. Qed.

Lemma contiguous_snoc (cs : list Chapter) (c : Chapter) :
  contiguous cs -> start c = cursor cs -> contiguous (cs ++ [c]).
Proof.
  intros [H0 Hadj] Hc. split.
  - intros c0 Hl. destruct cs as [|c1 cs'].
    + cbn in Hl. inversion Hl; subst. exact Hc.
    + apply H0. exact Hl.
  - intros i c1 c2 H1 H2.
    destruct (decide (S i < length cs)%nat) as [Hlt|Hge].
    + rewrite lookup_app_l in H1 by lia. rewrite lookup_app_l in H2 by lia. eauto.
    + assert (S i = length cs) as Hi.
      { apply lookup_lt_Some in H2. rewrite length_app in H2. cbn in H2. lia. }
      rewrite lookup_app_l in H1 by lia.
      rewrite lookup_app_r, Hi, Nat.sub_diag in H2 by lia.
      cbn in H2. inversion H2; subst c2.
      rewrite Hc. unfold cursor. rewrite last_lookup.
      replace (pred (length cs)) with i by lia. now rewrite H1.
Qed.

Lemma timeline_step line st w st1 w1 :
  step_result line st w (Ok st1) w1 -> timeline st -> timeline st1.
Proof.
  intros Hs [Hc Hcur]. inversion Hs; subst; [now split|].
  split; cbn [chapters current_time_ns].
  - apply contiguous_snoc; [exact Hc | now rewrite Hcur].
  - unfold cursor. now rewrite last_snoc.
Qed.

Lemma run_timeline st w lines st' w' :
  run_result st w lines (Ok st') w' -> timeline st -> timeline st'.
Proof.
  intros Hr. remember (Ok st') as r eqn:Er. revert st' Er.
  induction Hr as [st w | st w line rest st1 w1 r w2 Hs Hr IH | ];
    intros st' Er Ht.
  - injection Er as <-. exact Ht.
  - apply IH; [exact Er|]. eapply timeline_step; eauto.
  - discriminate.
Qed.

Lemma same_files_insert (fs : gmap string string) (p v : string) :
  is_Some (fs !! p) -> same_files (<[p := v]> fs) fs.
Proof.
  intros Hp q. destruct (decide (p = q)) as [<-|Hne].
  - rewrite lookup_insert_eq. split; eauto.
  - now rewrite lookup_insert_ne.
Qed.

Lemma on_disk_same (fs1 fs2 : gmap string string) (line : string) :
  same_files fs1 fs2 -> on_disk fs1 line = on_disk fs2 line.
Proof. intros H. unfold on_disk. apply bool_decide_ext, H. Qed.

(** What a successful turn changes, by whether the file is on disk. *)
Lemma step_ok_effect line st w st1 w1 :
  step_result line st w (Ok st1) w1 ->
  is_Some (files w !! concat_list_path) ->
  same_files (files w1) (files w)
  /\ joins w1 = joins w
  /\ (forall p, p <> concat_list_path -> files w1 !! p = files w !! p)
  /\ files w1 !! concat_list_path
     = Some (default EmptyString (files w !! concat_list_path)
             +:+ manifest_of (List.filter (on_disk (files w)) [line]))
  /\ length (chapters st1)
     = (length (chapters st) + length (List.filter (on_disk (files w)) [line]))%nat
  /\ warnings (stdout w1)
     = (warnings (stdout w)
        + length (List.filter (fun l => negb (on_disk (files w) l)) [line]))%nat.
Proof.
  intros Hs [old Hold]. cbn [List.filter].
  inversion Hs as [Hnone | info ref d out Hsome Hp Hc Hd Hw |]; subst.
  - assert (on_disk (files w) line = false) as ->.
    { unfold on_disk. apply bool_decide_eq_false. rewrite Hnone. now intros [? ?]. }
    unfold emit. cbn [negb manifest_of length files stdout joins].
    rewrite Hold, warnings_app, string_app_nil_r. cbn [default].
    repeat split; try done; try lia.
  - assert (on_disk (files w) line = true) as ->.
    { unfold on_disk. now apply bool_decide_eq_true. }
    cbn [negb manifest_of length files stdout joins chapters].
    rewrite Hold, warnings_app, Hw, length_app. cbn [default length].
    split; [apply same_files_insert; eauto|].
    split; [reflexivity|].
    split; [intros p Hne; now rewrite lookup_insert_ne|].
    split; [now rewrite lookup_insert_eq, string_app_nil_r|].
    split; lia.
Qed.

Lemma manifest_of_app (a b : list string) :
  manifest_of (a ++ b) = manifest_of a +:+ manifest_of b.
Proof.
  induction a as [|x a IH]; [reflexivity|].
  cbn [app manifest_of]. now rewrite IH, string_app_assoc.
Qed.

Lemma same_files_trans (a b c : gmap string string) :
  same_files a b -> same_files b c -> same_files a c.
Proof. intros H1 H2 p. now rewrite (H1 p). Qed.

(** What a loop that runs to its end has changed. *)
Lemma run_ok_effect (fs0 : gmap string string) st w lines st' w' :
  run_result st w lines (Ok st') w' ->
  same_files (files w) fs0 ->
  is_Some (fs0 !! concat_list_path) ->
  same_files (files w') fs0
  /\ joins w' = joins w
  /\ (forall p, p <> concat_list_path -> files w' !! p = files w !! p)
  /\ files w' !! concat_list_path
     = Some (default EmptyString (files w !! concat_list_path)
             +:+ manifest_of (List.filter (on_disk fs0) lines))
  /\ length (chapters st')
     = (length (chapters st) + length (List.filter (on_disk fs0) lines))%nat
  /\ warnings (stdout w')
     = (warnings (stdout w)
        + length (List.filter (fun l => negb (on_disk fs0 l)) lines))%nat.
Proof.
  intros Hr. remember (Ok st') as r eqn:Er. revert st' Er.
  induction Hr as [st w | st w line rest st1 w1 r w2 Hs Hr IH | ];
    intros st' Er Hsame Hc.
  - injection Er as <-. cbn [List.filter manifest_of length].
    rewrite string_app_nil_r, !Nat.add_0_r.
    destruct Hc as [v Hv]. destruct (proj2 (Hsame _) (ex_intro _ v Hv)) as [old ->].
    repeat split; try done. apply Hsame.
    apply Hsame.
  - assert (is_Some (files w !! concat_list_path)) as Hcw by now apply Hsame.
    destruct (step_ok_effect _ _ _ _ _ Hs Hcw) as (S1 & J1 & O1 & M1 & L1 & W1).
    assert (same_files (files w1) fs0) as Hsame1 by (eapply same_files_trans; eauto).
    destruct (IH st' Er Hsame1 Hc) as (S2 & J2 & O2 & M2 & L2 & W2).
    change (line :: rest) with ([line] ++ rest).
    rewrite !List.filter_app, manifest_of_app, !length_app.
    assert (forall l, on_disk (files w) l = on_disk fs0 l) as Hod
      by (intros l; now apply on_disk_same).
    cbn [List.filter] in *. rewrite Hod in *.
    split; [exact S2|].
    split; [congruence|].
    split; [intros p Hp; rewrite O2, O1; auto|].
    split; [rewrite M2, M1; cbn [from_option id]; now rewrite string_app_assoc|].
    split; lia.
  - discriminate.
Qed.

Lemma built_app cur a cs1 cur1 b cs2 cur2 :
  built cur a cs1 cur1 -> built cur1 b cs2 cur2 ->
  built cur (a ++ b) (cs1 ++ cs2) cur2.
Proof.
  induction 1 as [|cur line rest info d cs cur' Hp Hd Hb IH]; intros H2; [exact H2|].
  cbn [app]. eapply built_cons; eauto.
Qed.

Lemma step_ok_built line st w st1 w1 :
  step_result line st w (Ok st1) w1 ->
  exists new,
    chapters st1 = chapters st ++ new
    /\ built (current_time_ns st) (List.filter (on_disk (files w)) [line])
             new (current_time_ns st1).
Proof.
  intros Hs. cbn [List.filter].
  inversion Hs as [Hnone | info ref d out Hsome Hp Hc Hd Hw |]; subst.
  - assert (on_disk (files w) line = false) as ->.
    { unfold on_disk. apply bool_decide_eq_false. rewrite Hnone. now intros [? ?]. }
    exists []. rewrite app_nil_r. split; [reflexivity | apply built_nil].
  - assert (on_disk (files w) line = true) as ->.
    { unfold on_disk. now apply bool_decide_eq_true. }
    eexists. split; [reflexivity|]. cbn [current_time_ns].
    eapply built_cons; eauto. apply built_nil.
Qed.

Lemma run_ok_built (fs0 : gmap string string) st w lines st' w' :
  run_result st w lines (Ok st') w' ->
  same_files (files w) fs0 ->
  is_Some (fs0 !! concat_list_path) ->
  exists new,
    chapters st' = chapters st ++ new
    /\ built (current_time_ns st) (List.filter (on_disk fs0) lines)
             new (current_time_ns st').
Proof.
  intros Hr. remember (Ok st') as r eqn:Er. revert st' Er.
  induction Hr as [st w | st w line rest st1 w1 r w2 Hs Hr IH | ];
    intros st' Er Hsame Hc.
  - injection Er as <-. exists []. rewrite app_nil_r. split; [reflexivity | apply built_nil].
  - assert (is_Some (files w !! concat_list_path)) as Hcw by now apply Hsame.
    destruct (step_ok_effect _ _ _ _ _ Hs Hcw) as (S1 & _).
    destruct (step_ok_built _ _ _ _ _ Hs) as (new1 & E1 & B1).
    assert (same_files (files w1) fs0) as Hsame1 by (eapply same_files_trans; eauto).
    destruct (IH st' Er Hsame1 Hc) as (new2 & E2 & B2).
    exists (new1 ++ new2). split; [now rewrite E2, E1, app_assoc|].
    change (line :: rest) with ([line] ++ rest). rewrite List.filter_app.
    cbn [List.filter] in *. rewrite (on_disk_same _ _ line Hsame) in B1.
    eapply built_app; eauto.
  - discriminate.
Qed.

(** A loop that fails has printed, and nothing else; what it raises is
    [SystemExit 1] or an [Exception]. *)
Lemma run_fail_effect st w lines e w' :
  run_result st w lines (Raise e) w' ->
  is_Some (files w !! concat_list_path) ->
  (e = SystemExit 1 \/ is_Exception e = true)
  /\ joins w' = joins w
  /\ (forall p, p <> concat_list_path -> files w' !! p = files w !! p)
  /\ is_Some (files w' !! concat_list_path).
Proof.
  intros Hr. remember (Raise e) as r eqn:Er. revert e Er.
  induction Hr as [st w | st w line rest st1 w1 r w2 Hs Hr IH
                   | st w line rest e0 w1 Hs]; intros e Er Hc.
  - discriminate.
  - destruct (step_ok_effect _ _ _ _ _ Hs Hc) as (S1 & J1 & O1 & _).
    assert (is_Some (files w1 !! concat_list_path)) as Hc1 by now apply S1.
    destruct (IH e Er Hc1) as (He & J2 & O2 & C2).
    split; [exact He|]. split; [congruence|].
    split; [intros p Hp; rewrite O2, O1; auto | exact C2].
  - injection Er as ->. inversion Hs; subst. unfold emit. cbn [files joins]. auto.
Qed.

(** ** The loop inside its [with] and [try] *)

Lemma open_w_run (path : string) (w : World) :
  open_w path w
  = if env_denied env path then (Raise OSError, w)
    else (Ok (), mkWorld (<[path := EmptyString]> (files w)) (stdout w) (joins w)).
Proof. reflexivity. Qed.

Lemma analyze_ok lines w st w' :
  analyze lines w = (Ok st, w') ->
  env_denied env concat_list_path = false
  /\ run_result loop_start (opened w) lines (Ok st) w'.
Proof.
  unfold analyze, try_except. rewrite bind_run, open_w_run.
  destruct (env_denied env concat_list_path); [discriminate|].
  pose proof (for_lines_run (length lines) lines 0%nat loop_start (opened w)) as Hr.
  fold (opened w). fold loop_start.
  destruct (for_lines _ _ _ _ _) as [[st1|e] w1]; cbn [fst snd] in Hr.
  - intros [= <- <-]. auto.
  - unfold except_Exception. destruct (is_Exception e); [|discriminate].
    rewrite bind_run, print_run. discriminate.
Qed.

Lemma analyze_fail lines w e w' :
  analyze lines w = (Raise e, w') ->
  e = SystemExit 1 /\ joins w' = joins w
  /\ (forall p, p <> concat_list_path -> files w' !! p = files w !! p).
Proof.
  unfold analyze, try_except. rewrite bind_run, open_w_run.
  destruct (env_denied env concat_list_path).
  - cbn. intros [= <- <-]. auto.
  - pose proof (for_lines_run (length lines) lines 0%nat loop_start (opened w)) as Hr.
    fold (opened w). fold loop_start.
    destruct (for_lines _ _ _ _ _) as [[st1|e1] w1]; cbn [fst snd] in Hr; [discriminate|].
    assert (is_Some (files (opened w) !! concat_list_path)) as Hc.
    { unfold opened. cbn [files]. rewrite lookup_insert_eq. eauto. }
    destruct (run_fail_effect _ _ _ _ _ Hr Hc) as (He & J & O & _).
    assert (forall p, p <> concat_list_path -> files w1 !! p = files w !! p) as O'.
    { intros p Hp. rewrite O by done. unfold opened. cbn [files].
      now rewrite lookup_insert_ne. }
    unfold except_Exception. destruct He as [-> | He].
    + cbn. intros [= <- <-]. auto.
    + rewrite He, bind_run, print_run. cbn. intros [= <- <-]. auto.
Qed.

(** ** [main] *)

Lemma print_exit_run {A} (fs : list frag) (w : World) :
  (print fs ;; sys_exit 1) w = (@Raise A (SystemExit 1), emit [Print fs] w).
Proof. reflexivity. Qed.

Lemma when_exit_run {B} (b : bool) (fs : list frag) (k : M B) (w : World) :
  (when b (print fs ;; sys_exit 1) ;; k) w
  = if b then (Raise (SystemExit 1), emit [Print fs] w) else k w.
Proof. now destruct b. Qed.

Lemma check_dependencies_run (w : World) :
  match env_tools env with
  | ToolsOk => check_dependencies w = (Ok (), w)
  | _ => exists out, check_dependencies w = (Raise (SystemExit 1), emit out w)
  end.
Proof.
  unfold check_dependencies. destruct (env_tools env); [reflexivity| |].
  - eexists [_; _; _; _; _].
    unfold print_install_help, mbind, M_bind, print, sys_exit, raise, emit.
    cbn. rewrite <- !app_assoc. reflexivity.
  - eexists [_; _; _; _; _; _; _].
    unfold print_install_help, mbind, M_bind, print, sys_exit, raise, emit.
    cbn. rewrite <- !app_assoc. reflexivity.
Qed.

Lemma cover_check_run (w : World) :
  (match cover_image_path with
   | Some p =>
       found ← isfile p;
       when (negb found)
            (print [FStr "Error: Cover image '"; FStr p; FStr "' not found."];;
             sys_exit 1)
   | None => mret ()
   end) w
  = if match cover_image_path with
       | Some p => bool_decide (is_Some (files w !! p))
       | None => true
       end
    then (Ok (), w)
    else (Raise (SystemExit 1),
          emit [Print [FStr "Error: Cover image '";
                       FStr (default EmptyString cover_image_path);
                       FStr "' not found."]] w).
Proof.
  destruct cover_image_path as [p|]; [|reflexivity].
  rewrite bind_run, isfile_run. now destruct (bool_decide _).
Qed.

Lemma main_run (w : World) :
  if preflight w then
    exists text,
      files w !! order_file args = Some text
      /\ main w = pipeline (valid_lines (Py.readlines text))
                    (emit (banner (length (valid_lines (Py.readlines text)))) w)
  else exists out, main w = (Raise (SystemExit 1), emit out w).
Proof.
  unfold preflight, main. rewrite bind_run.
  pose proof (check_dependencies_run w) as Hd.
  destruct (env_tools env); cbn [andb];
    [rewrite Hd | destruct Hd as [out ->]; eauto | destruct Hd as [out ->]; eauto].
  rewrite when_exit_run.
  destruct (env_isdir env (input_dir args)); cbn [andb negb]; [|eauto].
  rewrite bind_run, isfile_run, when_exit_run.
  destruct (bool_decide (is_Some (files w !! order_file args))) eqn:Ho;
    cbn [andb negb]; [|eauto].
  rewrite bind_run, cover_check_run.
  destruct (match cover_image_path with Some _ => _ | None => _ end); cbn [andb];
    [|eauto].
  rewrite bind_run, print_run, bind_run.
  unfold try_except, read_lines.
  apply bool_decide_eq_true in Ho. destruct Ho as [text Ht].
  destruct (env_denied env (order_file args)); cbn [negb].
  - unfold except_Exception. cbn [is_Exception].
    rewrite print_exit_run, emit_emit. eauto.
  - change (files (emit ?o w)) with (files w). rewrite Ht.
    exists text. split; [reflexivity|].
    rewrite bind_run, print_run, emit_emit. reflexivity.
Qed.

(** ** From the loop to the exit status *)

Lemma built_probe cur ls cs cur' :
  built cur ls cs cur' ->
  forall line, In line ls -> exists info, probe (line_path line) = Ok info.
Proof.
  induction 1 as [|cur l rest info d cs cur' Hp Hd Hb IH]; intros line Hin.
  - destruct Hin.
  - destruct Hin as [<-|Hin]; eauto.
Qed.

Lemma built_lengths cur ls cs cur' :
  built cur ls cs cur' ->
  Forall2 (fun line c => exists info d,
               probe (line_path line) = Ok info
               /\ duration_ns info = Ok d /\ end_ c = start c + d) ls cs.
Proof.
  induction 1 as [|cur l rest info d cs cur' Hp Hd Hb IH]; constructor; eauto.
Qed.

Lemma opened_same (w : World) :
  is_Some (files (opened w) !! concat_list_path)
  /\ forall p, is_Some (files w !! p) -> is_Some (files (opened w) !! p).
Proof.
  unfold opened. cbn [files]. split.
  - rewrite lookup_insert_eq. eauto.
  - intros p Hp. destruct (decide (concat_list_path = p)) as [<-|Hne].
    + rewrite lookup_insert_eq. eauto.
    + now rewrite lookup_insert_ne.
Qed.

Lemma same_files_refl (fs : gmap string string) : same_files fs fs.
Proof. now intros p. Qed.

(** A probe that fails for a listed file that is on disk ends the loop
    with [SystemExit 1]. *)
Lemma analyze_probe_fail lines w line :
  In line lines ->
  is_Some (files w !! line_path line) ->
  (forall info, probe (line_path line) <> Ok info) ->
  exists w', analyze lines w = (Raise (SystemExit 1), w') /\ joins w' = joins w.
Proof.
  intros Hin Hfile Hprobe.
  destruct (analyze lines w) as [[st|e] w'] eqn:Ha.
  - exfalso. apply analyze_ok in Ha as [_ Hr].
    destruct (opened_same w) as [Hc Hsub].
    destruct (run_ok_built (files (opened w)) _ _ _ _ _ Hr
                (same_files_refl _) Hc) as (new & _ & Hb).
    destruct (built_probe _ _ _ _ Hb line) as [info Hi].
    + apply List.filter_In. split; [exact Hin|].
      unfold on_disk. apply bool_decide_eq_true. now apply Hsub.
    + now apply (Hprobe info).
  - apply analyze_fail in Ha as (-> & J & _). eauto.
Qed.

Lemma pipeline_analyze_fail lines w e w' :
  analyze lines w = (Raise e, w') -> pipeline lines w = (Raise e, w').
Proof. intros H. unfold pipeline. now rewrite bind_run, H. Qed.

Lemma probe_no_stream path kvs :
  env_ffprobe env path = mkProc 0 (Some (JDict kvs)) ->
  truthy (default JNull (assoc "streams" kvs)) = false ->
  forall info, probe path <> Ok info.
Proof.
  intros Hp Ht info. unfold probe. rewrite Hp. cbn [returncode stdout_json negb Z.eqb].
  destruct (getitem (JDict kvs) "format") as [format|]; [|discriminate].
  cbn [mbind Res_bind].
  destruct (getitem format "duration") as [d|]; [|discriminate].
  cbn [mbind Res_bind].
  destruct (py_float d) as [x|]; [|discriminate].
  cbn [mbind Res_bind dict_get]. rewrite Ht. discriminate.
Qed.

Lemma valid_lines_blank (lines : list string) :
  Forall blank lines -> valid_lines lines = [].
Proof.
  unfold valid_lines. induction 1 as [|l ls Hl _ IH]; [reflexivity|].
  cbn [List.filter]. unfold blank in Hl. rewrite Hl. exact IH.
Qed.

(** ** Strings of the manifest *)

Lemma subst_backslash (s : string) : subst_char Py.BACKSLASH "/" s = slashes s.
Proof.
  induction s as [|c s IH]; [reflexivity|].
  cbn [subst_char slashes]. rewrite IH. now destruct (Ascii.eqb Py.BACKSLASH c).
Qed.

Lemma manifest_line_slashes (p : string) :
  manifest_line p = "file '" +:+ slashes p +:+ "'" +:+ Py.NL.
Proof.
  unfold manifest_line.
  change "\"%string with (String Py.BACKSLASH EmptyString).
  now rewrite replace_char, subst_backslash.
Qed.

Lemma count_char_app (c : ascii) (a b : string) :
  count_char c (a +:+ b) = (count_char c a + count_char c b)%nat.
Proof.
  induction a as [|d a IH]; [reflexivity|].
  rewrite app_cons. cbn [count_char]. rewrite IH. lia.
Qed.

Lemma count_quote_slashes (p : string) :
  count_char Py.QUOTE (slashes p) = count_char Py.QUOTE p.
Proof.
  induction p as [|c p IH]; [reflexivity|].
  cbn [slashes count_char]. rewrite IH. f_equal.
  destruct (Ascii.eqb_spec Py.BACKSLASH c) as [<-|]; reflexivity.
Qed.

(** ** The join and its cleanup *)

Lemma remove_if_exists_run (path : string) (w : World) :
  env_isdir env path = false ->
  exists fs',
    (e ← exists_ path; when e (os_remove path)) w
    = (Ok (), mkWorld fs' (stdout w) (joins w))
    /\ fs' !! path = None
    /\ (forall q, files w !! q = None -> fs' !! q = None).
Proof.
  intros Hdir. rewrite bind_run. unfold exists_. rewrite Hdir, orb_false_r.
  destruct (files w !! path) as [v|] eqn:Hf.
  - rewrite bool_decide_eq_true_2 by eauto.
    unfold when, os_remove, remove. rewrite Hf.
    exists (delete path (files w)). split; [reflexivity|].
    split; [apply lookup_delete_eq|].
    intros q Hq. rewrite lookup_delete. case_decide; done.
  - rewrite bool_decide_eq_false_2 by (intros [? ?]; done).
    exists (files w). rewrite world_eta. auto.
Qed.

Lemma cleanup_run (w : World) :
  env_isdir env concat_list_path = false ->
  env_isdir env metadata_path = false ->
  exists fs',
    cleanup w = (Ok (), mkWorld fs' (stdout w) (joins w))
    /\ fs' !! concat_list_path = None
    /\ fs' !! metadata_path = None.
Proof.
  intros Hc Hm. unfold cleanup.
  destruct (remove_if_exists_run concat_list_path w Hc) as (f1 & E1 & N1 & _).
  change (e1 ← exists_ concat_list_path;
          when e1 (os_remove concat_list_path);;
          e2 ← exists_ metadata_path; when e2 (os_remove metadata_path))
    with ((e1 ← exists_ concat_list_path; when e1 (os_remove concat_list_path)) ;;
          (e2 ← exists_ metadata_path; when e2 (os_remove metadata_path))).
  rewrite bind_run, E1.
  destruct (remove_if_exists_run metadata_path (mkWorld f1 (stdout w) (joins w)) Hm)
    as (f2 & E2 & N2 & K2).
  rewrite E2. cbn [stdout joins]. exists f2. auto.
Qed.

Lemma write_chapter_run (path : string) (c : Chapter) (w : World) :
  exists fs', write_chapter path c w = (Ok (), mkWorld fs' (stdout w) (joins w)).
Proof. eexists. reflexivity. Qed.

Lemma write_chapters_run (path : string) (cs : list Chapter) : forall w,
  exists fs', write_chapters path cs w = (Ok (), mkWorld fs' (stdout w) (joins w)).
Proof.
  induction cs as [|c cs IH]; intros w.
  - exists (files w). cbn. now rewrite world_eta.
  - cbn [write_chapters]. rewrite bind_run.
    destruct (write_chapter_run path c w) as [f1 ->].
    destruct (IH (mkWorld f1 (stdout w) (joins w))) as [f2 ->].
    cbn [stdout joins]. eauto.
Qed.

(** Once the metadata file can be written, [join_files] returns normally
    whatever the muxer's exit code was, and neither artifact is left. *)
Lemma join_files_run (cs : list Chapter) (w : World) :
  env_denied env metadata_path = false ->
  env_isdir env concat_list_path = false ->
  env_isdir env metadata_path = false ->
  exists fs' out,
    join_files cs w = (Ok (), mkWorld fs' (stdout w ++ out) (joins w ++ [ffmpeg_cmd]))
    /\ fs' !! concat_list_path = None
    /\ fs' !! metadata_path = None.
Proof.
  intros Hden Hc Hm. unfold join_files.
  rewrite bind_run, print_run, bind_run, open_w_run, Hden.
  rewrite bind_run, write_run, bind_run.
  edestruct write_chapters_run as [f1 ->].
  rewrite bind_run, print_run, bind_run.
  fold cleanup.
  set (w1 := emit _ _).
  assert (exists o1 : list output,
    (match cover_image_path with
     | Some p => print [FStr "Embedding cover image: "; FStr p]
     | None => mret ()
     end) w1 = (Ok (), emit o1 w1)) as [o1 ->].
  { destruct cover_image_path; [eexists [_]; reflexivity|].
    exists []. now rewrite emit_nil. }
  unfold try_finally, try_except. rewrite bind_run. unfold run_ffmpeg.
  destruct (env_ffmpeg env ffmpeg_cmd (files (emit o1 w1))) as [rc f2].
  destruct (rc =? 0).
  - rewrite print_run.
    match goal with |- context [cleanup ?w2] =>
      destruct (cleanup_run w2 Hc Hm) as (f3 & -> & N1 & N2) end.
    exists f3. eexists. split; [|auto].
    subst w1. unfold emit. cbn [files stdout joins].
    rewrite <- !app_assoc. reflexivity.
  - rewrite print_run.
    match goal with |- context [cleanup ?w2] =>
      destruct (cleanup_run w2 Hc Hm) as (f3 & -> & N1 & N2) end.
    exists f3. eexists. split; [|auto].
    subst w1. unfold emit. cbn [files stdout joins].
    rewrite <- !app_assoc. reflexivity.
Qed.

(** ** The claims *)

(** C3. Every chapter list the loop hands on is contiguous: its first
    chapter starts at 0 and each chapter ends where the next one starts. *)
Theorem timeline_contiguous lines w st w' :
  analyze lines w = (Ok st, w') ->
  contiguous (chapters st).
Proof.
  intros Ha. apply analyze_ok in Ha as [_ Hr].
  apply (run_timeline _ _ _ _ _ Hr). split; [apply contiguous_nil | reflexivity].
Qed.

(** C4 (amended). The chapters are built file by file from a cursor that
    starts at 0: a file's chapter starts at the cursor and ends
    [int(duration * 1_000_000_000)] later, the truncation toward zero that
    [duration_ns] computes for every entry, and the cursor moves to that
    end. *)
Theorem chapters_built lines w st w' :
  analyze lines w = (Ok st, w') ->
  built 0 (List.filter (on_disk (files (opened w))) lines)
        (chapters st) (current_time_ns st)
  /\ forall info, duration_ns info = int_of_float (duration info * 1000000000)%float.
Proof.
  intros Ha. apply analyze_ok in Ha as [_ Hr]. split; [|reflexivity].
  destruct (opened_same w) as [Hc _].
  destruct (run_ok_built (files (opened w)) _ _ _ _ _ Hr (same_files_refl _) Hc)
    as (new & E & Hb).
  cbn [chapters loop_start app] in E. now rewrite E.
Qed.

(** C5. For every chapter title, un-escaping the value that
    [escape_metadata] serializes gives the title back, and so
    [escape_metadata] is injective. *)
Theorem escape_metadata_roundtrip :
  (forall title : string, unescape_metadata (escape_metadata title) = title)
  /\ Inj (=) (=) escape_metadata.
Proof.
  assert (R : forall t, unescape_metadata (escape_metadata t) = t).
  { intros t. rewrite escape_metadata_chars. apply unescape_escape_chars. }
  split; [exact R|].
  intros t1 t2 H. rewrite <- (R t1), <- (R t2). now rewrite H.
Qed.

(** C6 (amended). The filename of an order line is the trimmed text before
    its first [|]; the title is the trimmed text between the first [|] and
    the second one (or the end of the line), and the filename without its
    extension when the line has no [|]. *)
Theorem parse_line_first_bar (line : string) :
  parse_line line =
  (Py.strip (before_bar line),
   match after_bar line with
   | Some rest => Py.strip (before_bar rest)
   | None => (Py.splitext (Py.strip (before_bar line))).1
   end).
Proof. apply parse_line_bar. Qed.

(** C7. A line whose file is not in the input directory is skipped with
    one warning and changes nothing else; so a loop that runs to its end
    leaves as many chapters as lines that name a file on disk, and has
    printed as many warnings as lines that do not. *)
Theorem missing_files_skipped lines w st w' :
  analyze lines w = (Ok st, w') ->
  (forall total i line st0 w0,
      files w0 !! line_path line = None ->
      process_line total i line st0 w0
      = (Ok st0, emit [Print (warning (parse_line line).1)] w0))
  /\ (forall filename, warnings [Print (warning filename)] = 1%nat)
  /\ length (chapters st)
     = length (List.filter (on_disk (files (opened w))) lines)
  /\ warnings (stdout w')
     = (warnings (stdout w)
        + length (List.filter (fun l => negb (on_disk (files (opened w)) l)) lines))%nat.
Proof.
  intros Ha. apply analyze_ok in Ha as [_ Hr].
  split; [|split; [reflexivity|]].
  - intros total i line st0 w0 Hnone.
    pose proof (process_line_step total i line st0 w0) as Hs.
    destruct (process_line total i line st0 w0) as [r w1]. cbn [fst snd] in Hs.
    inversion Hs as [_ | ? ? ? ? Hsome | ? ? Hsome]; subst;
      [reflexivity | | ]; rewrite Hnone in Hsome; now destruct Hsome.
  - destruct (opened_same w) as [Hc _].
    destruct (run_ok_effect (files (opened w)) _ _ _ _ _ Hr (same_files_refl _) Hc)
      as (_ & _ & _ & _ & L & W).
    split; [exact L | exact W].
Qed.

(** C8 (amended). A listed file that is on disk and has no audio stream is
    fatal: [main] ends with exit status 1 and the muxer is never run. The
    duration itself is not checked: in a loop that runs to its end every
    file on disk has its chapter, which spans the [duration_ns] of the
    file's probe, zero or negative as it may be. *)
Theorem missing_stream_fatal w text line kvs :
  files w !! order_file args = Some text ->
  In line (valid_lines (Py.readlines text)) ->
  is_Some (files w !! line_path line) ->
  env_ffprobe env (line_path line) = mkProc 0 (Some (JDict kvs)) ->
  truthy (default JNull (assoc "streams" kvs)) = false ->
  (exit_status (main w).1 = 1 /\ joins (main w).2 = joins w)
  /\ (forall lines w0 st w',
         analyze lines w0 = (Ok st, w') ->
         Forall2 (fun line c => exists info d,
                      probe (line_path line) = Ok info
                      /\ duration_ns info = Ok d /\ end_ c = start c + d)
                 (List.filter (on_disk (files (opened w0))) lines)
                 (chapters st)).
Proof.
  intros Ht Hin Hfile Hp Hs. split.
  - pose proof (main_run w) as Hm.
    destruct (preflight w).
    + destruct Hm as (text' & Ht' & ->).
      assert (text' = text) as -> by congruence.
      set (lines := valid_lines (Py.readlines text)) in *.
      destruct (analyze_probe_fail lines (emit (banner (length lines)) w) line Hin Hfile
                  (probe_no_stream _ _ Hp Hs)) as (w' & Ha & J).
      rewrite (pipeline_analyze_fail _ _ _ _ Ha). cbn [fst snd exit_status]. auto.
    + destruct Hm as (out & ->). cbn [fst snd exit_status emit joins]. auto.
  - intros lines w0 st w' Ha. apply analyze_ok in Ha as [_ Hr].
    destruct (opened_same w0) as [Hc _].
    destruct (run_ok_built (files (opened w0)) _ _ _ _ _ Hr (same_files_refl _) Hc)
      as (new & E & Hb).
    cbn [chapters loop_start app] in E. rewrite E.
    eapply built_lengths; eauto.
Qed.

(** C9. When every line of the order file is blank, [main] prints that no
    valid files were found and exits with status 1, and the muxer has not
    been run. *)
Theorem blank_order_file_exits w text :
  preflight w = true ->
  files w !! order_file args = Some text ->
  Forall blank (Py.readlines text) ->
  env_denied env concat_list_path = false ->
  (main w).1 = Raise (SystemExit 1)
  /\ exit_status (main w).1 = 1
  /\ stdout (main w).2
     = stdout w ++ banner 0 ++ [Print [FStr "No valid files found to process."]]
  /\ joins (main w).2 = joins w.
Proof.
  intros Hpre Ht Hblank Hden.
  pose proof (main_run w) as Hm. rewrite Hpre in Hm.
  destruct Hm as (text' & Ht' & ->).
  assert (text' = text) as -> by congruence.
  rewrite (valid_lines_blank _ Hblank).
  unfold pipeline, analyze, try_except.
  rewrite !bind_run, open_w_run, Hden. cbn [for_lines mret M_ret chapters].
  rewrite when_exit_run.
  rewrite bool_decide_eq_true_2 by reflexivity.
  cbn [fst snd exit_status emit stdout joins length].
  rewrite <- app_assoc. auto.
Qed.

(** C10. The manifest a loop that runs to its end leaves holds one line per
    file on disk, in order; the line is [file '], the path with every
    backslash turned into a slash, ['] and a newline. A quote of the path
    stays as it is: the line has two quotes more than the path. *)
Theorem manifest_lines lines w st w' :
  analyze lines w = (Ok st, w') ->
  files w' !! concat_list_path
  = Some (manifest_of (List.filter (on_disk (files (opened w))) lines))
  /\ (forall p, manifest_line p = "file '" +:+ slashes p +:+ "'" +:+ Py.NL)
  /\ (forall p, count_char Py.QUOTE (manifest_line p)
                = (2 + count_char Py.QUOTE p)%nat).
Proof.
  intros Ha. apply analyze_ok in Ha as [_ Hr].
  destruct (opened_same w) as [Hc _].
  destruct (run_ok_effect (files (opened w)) _ _ _ _ _ Hr (same_files_refl _) Hc)
    as (_ & _ & _ & M & _).
  split; [|split].
  - rewrite M. unfold opened. cbn [files]. now rewrite lookup_insert_eq.
  - apply manifest_line_slashes.
  - intros p. rewrite manifest_line_slashes, !count_char_app, count_quote_slashes.
    change (count_char Py.QUOTE "file '") with 1%nat.
    change (count_char Py.QUOTE "'") with 1%nat.
    change (count_char Py.QUOTE Py.NL) with 0%nat. lia.
Qed.

(** ** Further properties of the script *)

Lemma pipeline_ok lines w st w1 :
  analyze lines w = (Ok st, w1) ->
  chapters st <> [] ->
  pipeline lines w = join_files (chapters st) w1.
Proof.
  intros Ha Hne. unfold pipeline. rewrite bind_run, Ha.
  rewrite bool_decide_eq_false_2 by exact Hne. reflexivity.
Qed.




Lemma write_chapter_text (path : string) (c : Chapter) fs o j :
  write_chapter path c (mkWorld fs o j)
  = (Ok (), mkWorld (<[path := default EmptyString (fs !! path) +:+ chapter_block c]> fs)
                    o j).
Proof.
  unfold write_chapter, mbind, M_bind, write. cbn [files stdout joins].
  rewrite !lookup_insert_eq, !insert_insert_eq. cbn [from_option id].
  unfold chapter_block. now rewrite !string_app_assoc.
Qed.

Lemma write_chapters_text (path : string) (cs : list Chapter) : forall fs o j pre,
  fs !! path = Some pre ->
  write_chapters path cs (mkWorld fs o j)
  = (Ok (), mkWorld (<[path := pre +:+ chapter_blocks cs]> fs) o j).
Proof.
  induction cs as [|c cs IH]; intros fs o j pre Hpre.
  - cbn [write_chapters chapter_blocks mret M_ret]. rewrite string_app_nil_r.
    now rewrite insert_id.
  - cbn [write_chapters chapter_blocks]. rewrite bind_run, write_chapter_text, Hpre.
    cbn [from_option id].
    erewrite IH by apply lookup_insert_eq.
    now rewrite insert_insert_eq, string_app_assoc.
Qed.

(** The world in which [join_files] runs the muxer: the metadata file
    written, and the two or three lines printed. *)
Lemma join_files_prepare (cs : list Chapter) (w : World) :
  env_denied env metadata_path = false ->
  exists out,
    join_files cs w
    = try_finally
        (try_except
           (run_ffmpeg ffmpeg_cmd;;
            print [FStr "Success! Output saved to: "; FStr (output_file args)])
           (fun e =>
              match e with
              | CalledProcessError _ => Some (print [FStr "Error running ffmpeg: "; FExn e])
              | _ => None
              end))
        cleanup
        (mkWorld (<[metadata_path := metadata_text cs]> (files w))
                 (stdout w ++ out) (joins w)).
Proof.
  intros Hden. unfold join_files. fold cleanup.
  rewrite bind_run, print_run, bind_run, open_w_run, Hden.
  rewrite bind_run, write_run, bind_run.
  cbn [files stdout joins emit].
  erewrite write_chapters_text by (rewrite lookup_insert_eq; reflexivity).
  rewrite lookup_insert_eq, !insert_insert_eq. cbn [from_option id].
  rewrite app_nil. fold (metadata_text cs).
  rewrite bind_run, print_run, bind_run.
  destruct cover_image_path as [p|].
  - rewrite print_run. unfold emit. cbn [files stdout joins].
    rewrite <- !app_assoc. eexists. reflexivity.
  - cbn [mret M_ret]. unfold emit. cbn [files stdout joins].
    rewrite <- !app_assoc. eexists. reflexivity.
Qed.

Lemma remove_if_exists_delete (path : string) (w : World) :
  env_isdir env path = false ->
  (e ← exists_ path; when e (os_remove path)) w
  = (Ok (), mkWorld (delete path (files w)) (stdout w) (joins w)).
Proof.
  intros Hdir. rewrite bind_run. unfold exists_. rewrite Hdir, orb_false_r.
  destruct (files w !! path) as [v|] eqn:Hf.
  - rewrite bool_decide_eq_true_2 by eauto.
    unfold when, os_remove, remove. now rewrite Hf.
  - rewrite bool_decide_eq_false_2 by (intros [? ?]; done).
    cbn [when mret M_ret]. rewrite delete_id by exact Hf. now rewrite world_eta.
Qed.

Lemma cleanup_delete (w : World) :
  env_isdir env concat_list_path = false ->
  env_isdir env metadata_path = false ->
  cleanup w
  = (Ok (), mkWorld (delete metadata_path (delete concat_list_path (files w)))
                    (stdout w) (joins w)).
Proof.
  intros Hc Hm. unfold cleanup.
  change (e1 ← exists_ concat_list_path;
          when e1 (os_remove concat_list_path);;
          e2 ← exists_ metadata_path; when e2 (os_remove metadata_path))
    with ((e1 ← exists_ concat_list_path; when e1 (os_remove concat_list_path)) ;;
          (e2 ← exists_ metadata_path; when e2 (os_remove metadata_path))).
  rewrite bind_run, (remove_if_exists_delete _ _ Hc).
  now rewrite (remove_if_exists_delete _ _ Hm).
Qed.

(** The muxer run and what follows it, on the files [fs]. *)
Lemma mux_run (fs : gmap string string) (o : list output) (j : list (list string)) :
  try_except
    (run_ffmpeg ffmpeg_cmd;;
     print [FStr "Success! Output saved to: "; FStr (output_file args)])
    (fun e =>
       match e with
       | CalledProcessError _ => Some (print [FStr "Error running ffmpeg: "; FExn e])
       | _ => None
       end)
    (mkWorld fs o j)
  = (Ok (), mkWorld (env_ffmpeg env ffmpeg_cmd fs).2
                    (o ++ [Print (mux_report (env_ffmpeg env ffmpeg_cmd fs).1)])
                    (j ++ [ffmpeg_cmd])).
Proof.
  unfold try_except. rewrite bind_run. unfold run_ffmpeg, mux_report.
  cbn [files stdout joins].
  destruct (env_ffmpeg env ffmpeg_cmd fs) as [rc f2]. cbn [fst snd].
  destruct (rc =? 0); reflexivity.
Qed.

Lemma join_files_exact (cs : list Chapter) (w : World) :
  env_denied env metadata_path = false ->
  env_isdir env concat_list_path = false ->
  env_isdir env metadata_path = false ->
  exists out,
    join_files cs w
    = (Ok (),
       mkWorld
         (delete metadata_path
            (delete concat_list_path
               (env_ffmpeg env ffmpeg_cmd
                  (<[metadata_path := metadata_text cs]> (files w))).2))
         (stdout w ++ out
          ++ [Print (mux_report
                       (env_ffmpeg env ffmpeg_cmd
                          (<[metadata_path := metadata_text cs]> (files w))).1)])
         (joins w ++ [ffmpeg_cmd])).
Proof.
  intros Hden Hc Hm.
  destruct (join_files_prepare cs w Hden) as [out ->].
  exists out. unfold try_finally. rewrite mux_run, (cleanup_delete _ Hc Hm).
  cbn [files stdout joins]. now rewrite <- app_assoc.
Qed.



Lemma main_fatal (w : World) (text : string) :
  files w !! order_file args = Some text ->
  (forall w0, files w0 = files w -> joins w0 = joins w ->
     exists w', analyze (valid_lines (Py.readlines text)) w0 = (Raise (SystemExit 1), w')
                /\ joins w' = joins w0) ->
  exit_status (main w).1 = 1 /\ joins (main w).2 = joins w.
Proof.
  intros Ht Hfail. pose proof (main_run w) as Hm. destruct (preflight w).
  - destruct Hm as (text' & Ht' & ->).
    assert (text' = text) as -> by congruence.
    destruct (Hfail (emit (banner (length (valid_lines (Py.readlines text)))) w)
                eq_refl eq_refl) as (w' & Ha & J).
    rewrite (pipeline_analyze_fail _ _ _ _ Ha). cbn [fst snd exit_status]. auto.
  - destruct Hm as (out & ->). cbn [fst snd exit_status emit joins]. auto.
Qed.

Lemma run_ok_ref (fs0 : gmap string string) st w lines st' w' :
  run_result st w lines (Ok st') w' ->
  same_files (files w) fs0 ->
  is_Some (fs0 !! concat_list_path) ->
  match analysis_ref st with
  | Some r =>
      analysis_ref st' = Some r
      /\ Forall (matches r) (List.filter (on_disk fs0) lines)
  | None =>
      match List.filter (on_disk fs0) lines with
      | [] => analysis_ref st' = None
      | first :: _ =>
          exists r,
            probe (line_path first) = Ok r
            /\ analysis_ref st' = Some r
            /\ Forall (matches r) (List.filter (on_disk fs0) lines)
      end
  end.
Proof.
  intros Hr. remember (Ok st') as res eqn:Er. revert st' Er.
  induction Hr as [st w | st w line rest st1 w1 res w2 Hs Hr IH | ];
    intros st' Er Hsame Hc.
  - injection Er as <-. cbn [List.filter]. destruct (analysis_ref st); auto.
  - assert (is_Some (files w !! concat_list_path)) as Hcw by now apply Hsame.
    destruct (step_ok_effect _ _ _ _ _ Hs Hcw) as (S1 & _).
    assert (same_files (files w1) fs0) as Hsame1 by (eapply same_files_trans; eauto).
    specialize (IH st' Er Hsame1 Hc).
    cbn [List.filter]. rewrite <- (on_disk_same _ _ line Hsame).
    inversion Hs as [Hnone | info ref d out Hsome Hp Hcomp Hd Hw |]; subst.
    + assert (on_disk (files w) line = false) as ->.
      { unfold on_disk. apply bool_decide_eq_false. rewrite Hnone. now intros [? ?]. }
      exact IH.
    + assert (on_disk (files w) line = true) as ->.
      { unfold on_disk. now apply bool_decide_eq_true. }
      cbn [analysis_ref] in IH. destruct IH as [E F].
      unfold compatible in Hcomp. destruct (analysis_ref st) as [r|].
      * destruct (sample_rate info =? sample_rate r) eqn:E1; [|discriminate].
        destruct (channels info =? channels r) eqn:E2; [|discriminate].
        injection Hcomp as <-. split; [exact E|]. constructor; [|exact F].
        exists info. apply Z.eqb_eq in E1, E2. auto.
      * injection Hcomp as <-. exists info.
        split; [exact Hp|]. split; [exact E|]. constructor; [|exact F].
        exists info. auto.
  - discriminate.
Qed.

Lemma analyze_ref lines w st w' :
  analyze lines w = (Ok st, w') ->
  match List.filter (on_disk (files (opened w))) lines with
  | [] => analysis_ref st = None
  | first :: _ =>
      exists r,
        probe (line_path first) = Ok r
        /\ analysis_ref st = Some r
        /\ Forall (matches r) (List.filter (on_disk (files (opened w))) lines)
  end.
Proof.
  intros Ha. apply analyze_ok in Ha as [_ Hr].
  destruct (opened_same w) as [Hc _].
  exact (run_ok_ref (files (opened w)) _ _ _ _ _ Hr (same_files_refl _) Hc).
Qed.

Lemma built_titles cur ls cs cur' :
  built cur ls cs cur' ->
  map title cs = map (fun l => (parse_line l).2) ls.
Proof.
  induction 1 as [|cur l rest info d cs cur' Hp Hd Hb IH]; [reflexivity|].
  cbn [map title]. now rewrite IH.
Qed.

Lemma built_total cur ls cs cur' :
  built cur ls cs cur' -> cur' = cur + total_length cs.
Proof.
  induction 1 as [|cur l rest info d cs cur' Hp Hd Hb IH].
  - cbn. lia.
  - cbn [total_length fold_right start end_]. fold (total_length cs). lia.
Qed.

Lemma analyze_built lines w st w' :
  analyze lines w = (Ok st, w') ->
  built 0 (List.filter (on_disk (files (opened w))) lines)
        (chapters st) (current_time_ns st).
Proof.
  intros Ha. apply analyze_ok in Ha as [_ Hr].
  destruct (opened_same w) as [Hc _].
  destruct (run_ok_built (files (opened w)) _ _ _ _ _ Hr (same_files_refl _) Hc)
    as (new & E & Hb).
  cbn [chapters loop_start app] in E. now rewrite E.
Qed.

(** *** Properties *)

(** X1. A run whose checks before the loop fail (a tool missing or broken,
    the input directory or the order file or the cover image absent, the
    order file unreadable) exits with status 1, has written no file and has
    not run the muxer. *)
Theorem preflight_failure_untouched (w : World) :
  preflight w = false ->
  (main w).1 = Raise (SystemExit 1)
  /\ files (main w).2 = files w
  /\ joins (main w).2 = joins w.
Proof.
  intros Hp. pose proof (main_run w) as Hm. rewrite Hp in Hm.
  destruct Hm as [out ->]. auto.
Qed.


(** X3. When the loop ends with at least one chapter and the metadata file
    can be written, [main] runs the muxer once, returns normally whatever
    the muxer's return code, and leaves neither the manifest nor the
    metadata file; the last line printed reports the muxer's success or
    failure. *)
Theorem main_join_cleanup (w : World) (text : string) (st : Loop) (w1 : World) :
  preflight w = true ->
  files w !! order_file args = Some text ->
  analyze (valid_lines (Py.readlines text))
          (emit (banner (length (valid_lines (Py.readlines text)))) w) = (Ok st, w1) ->
  chapters st <> [] ->
  env_denied env metadata_path = false ->
  env_isdir env concat_list_path = false ->
  env_isdir env metadata_path = false ->
  (main w).1 = Ok ()
  /\ joins (main w).2 = joins w ++ [ffmpeg_cmd]
  /\ files (main w).2 !! concat_list_path = None
  /\ files (main w).2 !! metadata_path = None
  /\ last (stdout (main w).2)
     = Some (Print (mux_report
                      (env_ffmpeg env ffmpeg_cmd
                         (<[metadata_path := metadata_text (chapters st)]> (files w1))).1)).
Proof.
  intros Hp Ht Ha Hne Hden Hc Hm.
  pose proof (main_run w) as Hmain. rewrite Hp in Hmain.
  destruct Hmain as (text' & Ht' & ->).
  assert (text' = text) as -> by congruence.
  rewrite (pipeline_ok _ _ _ _ Ha Hne).
  destruct (join_files_exact (chapters st) w1 Hden Hc Hm) as [out ->].
  cbn [fst snd files stdout joins].
  pose proof Ha as Ha'. apply analyze_ok in Ha' as [_ Hr].
  destruct (opened_same (emit (banner (length (valid_lines (Py.readlines text)))) w))
    as [Hcc _].
  destruct (run_ok_effect _ _ _ _ _ _ Hr (same_files_refl _) Hcc) as (_ & J1 & _).
  split; [reflexivity|]. split; [now rewrite J1|].
  split.
  { rewrite lookup_delete. case_decide; [done|]. apply lookup_delete_eq. }
  split; [apply lookup_delete_eq|].
  rewrite app_assoc. apply last_snoc.
Qed.

(** X4. [join_files] runs the muxer on a file system in which the metadata
    file holds the header and one block per chapter, whatever it held
    before; what it leaves is what the muxer left, without the manifest and
    the metadata file. *)
Theorem muxer_input (cs : list Chapter) (w : World) :
  env_denied env metadata_path = false ->
  env_isdir env concat_list_path = false ->
  env_isdir env metadata_path = false ->
  (join_files cs w).1 = Ok ()
  /\ files (join_files cs w).2
     = delete metadata_path
         (delete concat_list_path
            (env_ffmpeg env ffmpeg_cmd
               (<[metadata_path := metadata_text cs]> (files w))).2).
Proof.
  intros Hden Hc Hm.
  destruct (join_files_exact cs w Hden Hc Hm) as [out ->]. auto.
Qed.

(** X5. In a loop that runs to its end the reference parameters are those
    of the first file on disk, and every file on disk has the sample rate
    and the channel count of that first file. *)
Theorem joined_files_homogeneous lines w st w' :
  analyze lines w = (Ok st, w') ->
  match List.filter (on_disk (files (opened w))) lines with
  | [] => analysis_ref st = None
  | first :: _ =>
      exists r,
        probe (line_path first) = Ok r
        /\ analysis_ref st = Some r
        /\ Forall (matches r) (List.filter (on_disk (files (opened w))) lines)
  end.
Proof. apply analyze_ref. Qed.

(** X6. Two listed files on disk whose probes differ in sample rate or in
    channel count make [main] exit with status 1 without running the
    muxer, wherever they stand in the order file. *)
Theorem mismatch_fatal (w : World) (text l1 l2 : string) (i1 i2 : AudioInfo) :
  files w !! order_file args = Some text ->
  In l1 (valid_lines (Py.readlines text)) ->
  In l2 (valid_lines (Py.readlines text)) ->
  is_Some (files w !! line_path l1) ->
  is_Some (files w !! line_path l2) ->
  probe (line_path l1) = Ok i1 ->
  probe (line_path l2) = Ok i2 ->
  sample_rate i1 <> sample_rate i2 \/ channels i1 <> channels i2 ->
  exit_status (main w).1 = 1 /\ joins (main w).2 = joins w.
Proof.
  intros Ht In1 In2 F1 F2 P1 P2 Hdiff.
  apply (main_fatal w text Ht). intros w0 Hf Hj.
  destruct (analyze (valid_lines (Py.readlines text)) w0) as [[st|e] w'] eqn:Ha.
  - exfalso. pose proof (analyze_ref _ _ _ _ Ha) as Href.
    destruct (opened_same w0) as [_ Hsub].
    assert (forall l, In l (valid_lines (Py.readlines text)) ->
                      is_Some (files w !! line_path l) ->
                      In l (List.filter (on_disk (files (opened w0)))
                                        (valid_lines (Py.readlines text)))) as Hin.
    { intros l Hl Hs. apply List.filter_In. split; [exact Hl|].
      unfold on_disk. apply bool_decide_eq_true, Hsub. now rewrite Hf. }
    pose proof (Hin l1 In1 F1) as H1. pose proof (Hin l2 In2 F2) as H2.
    destruct (List.filter _ _) as [|first rest]; [destruct H1|].
    destruct Href as (r & _ & _ & Hall).
    rewrite List.Forall_forall in Hall.
    destruct (Hall l1 H1) as (j1 & Q1 & R1 & C1).
    destruct (Hall l2 H2) as (j2 & Q2 & R2 & C2).
    assert (j1 = i1) as -> by congruence. assert (j2 = i2) as -> by congruence.
    destruct Hdiff as [Hd|Hd]; apply Hd; congruence.
  - apply analyze_fail in Ha as (-> & J & _). eauto.
Qed.

(** X7. A probe that fails, for whatever reason, on a listed file that is
    on disk makes [main] exit with status 1 without running the muxer. *)
Theorem probe_failure_fatal (w : World) (text line : string) (e : exn) :
  files w !! order_file args = Some text ->
  In line (valid_lines (Py.readlines text)) ->
  is_Some (files w !! line_path line) ->
  probe (line_path line) = Raise e ->
  exit_status (main w).1 = 1 /\ joins (main w).2 = joins w.
Proof.
  intros Ht Hin Hf Hp. apply (main_fatal w text Ht). intros w0 Hf0 Hj.
  apply (analyze_probe_fail _ w0 line Hin).
  - now rewrite Hf0.
  - intros info. rewrite Hp. discriminate.
Qed.

(** X8. The chapters of a loop that runs to its end carry, in order, the
    titles of the order lines whose file is on disk. *)
Theorem chapter_titles_in_order lines w st w' :
  analyze lines w = (Ok st, w') ->
  map title (chapters st)
  = map (fun l => (parse_line l).2)
        (List.filter (on_disk (files (opened w))) lines).
Proof. intros Ha. eapply built_titles, analyze_built, Ha. Qed.

(** X9. After a loop that runs to its end the cursor, which is the end of
    the last chapter, is the sum of the lengths of the chapters. *)
Theorem cursor_is_total_length lines w st w' :
  analyze lines w = (Ok st, w') ->
  current_time_ns st = total_length (chapters st)
  /\ cursor (chapters st) = current_time_ns st.
Proof.
  intros Ha. split.
  - pose proof (built_total _ _ _ _ (analyze_built _ _ _ _ Ha)). lia.
  - apply analyze_ok in Ha as [_ Hr].
    apply (run_timeline _ _ _ _ _ Hr). split; [apply contiguous_nil | reflexivity].
Qed.

(** *** What [get_file_info] lets through *)









(** X11. When ffprobe exits with 0 and prints a JSON object whose [format]
    has a [duration] and whose [streams] is a list that starts with an
    object holding [sample_rate] and [channels], each convertible,
    [get_file_info] returns these three values and prints nothing; the
    further streams and the other keys do not count. *)
Theorem get_file_info_first_stream (path : string) (w : World)
    kvs fkvs skvs others dv sv cv d sr ch :
  env_ffprobe env path = mkProc 0 (Some (JDict kvs)) ->
  assoc "format" kvs = Some (JDict fkvs) ->
  assoc "duration" fkvs = Some dv ->
  py_float dv = Ok d ->
  assoc "streams" kvs = Some (JList (JDict skvs :: others)) ->
  assoc "sample_rate" skvs = Some sv ->
  py_int sv = Ok sr ->
  assoc "channels" skvs = Some cv ->
  py_int cv = Ok ch ->
  get_file_info path w = (Ok (mkInfo d sr ch), w).
Proof.
  intros Hp Hf Hd Hpf Hs Hsr Hpi Hc Hpc.
  unfold get_file_info, try_except, lift, probe.
  rewrite Hp. cbn [returncode stdout_json Z.eqb negb getitem dict_get].
  rewrite Hf. cbn [mbind Res_bind getitem]. rewrite Hd. cbn [mbind Res_bind].
  rewrite Hpf. cbn [mbind Res_bind]. rewrite Hs.
  cbn [from_option id truthy negb mbind Res_bind getitem0 getitem].
  rewrite Hsr. cbn [mbind Res_bind]. rewrite Hpi. cbn [mbind Res_bind].
  rewrite Hc. cbn [mbind Res_bind]. rewrite Hpc. reflexivity.
Qed.

(** *** Escaping *)

Lemma escape_chars_app (a b : string) :
  escape_chars (a +:+ b) = escape_chars a +:+ escape_chars b.
Proof.
  induction a as [|c a IH]; [reflexivity|].
  rewrite app_cons. cbn [escape_chars]. rewrite IH.
  destruct (reserved c); now rewrite !app_cons.
Qed.

Lemma escape_chars_length (s : string) :
  (String.length s <= String.length (escape_chars s))%nat.
Proof.
  induction s as [|c s IH]; [reflexivity|].
  cbn [escape_chars]. destruct (reserved c); cbn [String.length]; lia.
Qed.

Lemma escape_chars_plain (s : string) : escape_chars s = s <-> plain s = true.
Proof.
  induction s as [|c s IH]; [easy|].
  cbn [escape_chars plain]. destruct (reserved c) eqn:Hr; cbn [negb andb].
  - split; [|discriminate]. intros [= Hc Hs]. exfalso.
    pose proof (escape_chars_length s) as Hl.
    rewrite <- Hs in Hl at 1. cbn [String.length] in Hl. lia.
  - rewrite <- IH. split; [now intros [= ->] | now intros ->].
Qed.

(** X12. Escaping goes through concatenation: the escaped form of [a + b]
    is the escaped form of [a] followed by that of [b]. *)
Theorem escape_metadata_app (a b : string) :
  escape_metadata (a +:+ b) = escape_metadata a +:+ escape_metadata b.
Proof. rewrite !escape_metadata_chars. apply escape_chars_app. Qed.

(** X13. [escape_metadata] leaves a title as it is exactly when the title
    holds none of the four reserved characters. *)
Theorem escape_metadata_fixed (s : string) :
  escape_metadata s = s <-> plain s = true.
Proof. rewrite escape_metadata_chars. apply escape_chars_plain. Qed.

(** *** The calls of the progress bar *)

Lemma grows_refl P w : grows P w w.
Proof. exists []. now rewrite app_nil_r. Qed.

Lemma grows_same P w w' : stdout w' = stdout w -> grows P w w'.
Proof. intros E. exists []. now rewrite app_nil_r. Qed.

Lemma grows_trans P w1 w2 w3 : grows P w1 w2 -> grows P w2 w3 -> grows P w1 w3.
Proof.
  intros (o1 & E1 & F1) (o2 & E2 & F2). exists (o1 ++ o2).
  split; [now rewrite E2, E1, app_assoc | now apply Forall_app].
Qed.

Lemma grows_weaken (P Q : output -> Prop) w w' :
  (forall o, P o -> Q o) -> grows P w w' -> grows Q w w'.
Proof.
  intros H (o & E & F). exists o. split; [exact E|].
  eapply List.Forall_impl; eauto.
Qed.

Lemma grows_bind {A B} P (m : M A) (k : A -> M B) w :
  grows P w (m w).2 ->
  (forall a w1, grows P w1 (k a w1).2) ->
  grows P w ((m ≫= k) w).2.
Proof.
  intros Hm Hk. rewrite bind_run. destruct (m w) as [[a|e] w1]; cbn [snd] in *.
  - eapply grows_trans; eauto.
  - exact Hm.
Qed.

Lemma grows_print P fs w : P (Print fs) -> grows P w (print fs w).2.
Proof. intros H. exists [Print fs]. split; [reflexivity | now constructor]. Qed.

Lemma grows_print_exit {A} P fs w :
  P (Print fs) -> grows P w ((print fs ;; @sys_exit A 1) w).2.
Proof. intros H. exists [Print fs]. split; [reflexivity | now constructor]. Qed.

Lemma grows_print_verbose P msg v w :
  (forall fs, P (Print fs)) -> grows P w (print_verbose msg v w).2.
Proof. intros H. destruct v; [now apply grows_print | apply grows_refl]. Qed.

Lemma grows_get_file_info P path w :
  (forall fs, P (Print fs)) -> grows P w (get_file_info path w).2.
Proof.
  intros H. unfold get_file_info, try_except, lift.
  destruct (probe path) as [info|e]; [apply grows_refl|].
  destruct e; try apply grows_refl; now apply grows_print_exit.
Qed.

Lemma grows_validate P filename info r w :
  (forall fs, P (Print fs)) -> grows P w (validate filename info r w).2.
Proof.
  intros H. unfold validate. destruct r as [ref|].
  - destruct (negb _).
    + repeat (apply grows_bind; [now apply grows_print | intros _ ?]).
      apply grows_refl.
    + destruct (negb _); [|apply grows_refl].
      repeat (apply grows_bind; [now apply grows_print | intros _ ?]).
      apply grows_refl.
  - apply grows_bind; [now apply grows_print_verbose | intros _ ?]. apply grows_refl.
Qed.

Lemma grows_process_line total i line st w :
  grows (progress_at total i) w (process_line total i line st w).2.
Proof.
  assert (forall fs, progress_at total i (Print fs)) as HP by (intros; exact I).
  unfold process_line. destruct (parse_line line) as [filename chapter_title].
  apply grows_bind; [apply grows_refl | intros found w1].
  destruct (negb found).
  - apply grows_bind; [now apply grows_print | intros _ ?]. apply grows_refl.
  - apply grows_bind; [now apply grows_print_verbose | intros _ w2].
    apply grows_bind; [now apply grows_get_file_info | intros info w3].
    apply grows_bind; [now apply grows_print_verbose | intros _ w4].
    apply grows_bind; [now apply grows_validate | intros ref w5].
    apply grows_bind; [apply grows_refl | intros d w6].
    apply grows_bind; [now apply grows_same | intros _ w7].
    apply grows_bind; [|intros _ w8; apply grows_refl].
    exists [Progress (i + 1) total]. split; [reflexivity|].
    constructor; [|constructor]. split; reflexivity.
Qed.

Lemma grows_for_lines total (lines : list string) : forall i st w,
  grows (progress_between total i (i + length lines)) w
        (for_lines total i lines st w).2.
Proof.
  induction lines as [|line rest IH]; intros i st w; [apply grows_refl|].
  cbn [for_lines length]. apply grows_bind.
  - eapply grows_weaken; [|apply grows_process_line].
    intros [fs|it t]; cbn; [auto|]. intros [-> ->]. split; [lia | reflexivity].
  - intros st1 w1. eapply grows_weaken; [|apply IH].
    intros [fs|it t]; cbn; [auto|]. intros [H ->]. split; [lia | reflexivity].
Qed.

(** X14. While the loop runs, standard output only grows, and every
    rendering of the progress bar is for a turn between 1 and the number of
    lines, which is its total: the division by the total that
    [print_progress] starts with never meets 0, and the bar is never asked
    for more than its total. *)
Theorem progress_calls_in_range (lines : list string) (w : World) :
  grows (progress_between (length lines) 0 (length lines)) w (analyze lines w).2.
Proof.
  assert (forall fs, progress_between (length lines) 0 (length lines) (Print fs)) as HP
    by (intros; exact I).
  unfold analyze, try_except.
  pose proof (grows_bind (progress_between (length lines) 0 (length lines))
                (open_w concat_list_path)
                (fun _ => for_lines (length lines) 0 lines (mkLoop 0 None [])) w) as Hb.
  destruct ((open_w concat_list_path;;
             for_lines (length lines) 0 lines (mkLoop 0 None [])) w)
    as [[st|e] w1] eqn:E; cbn [snd] in *.
  - apply Hb.
    + rewrite open_w_run. destruct (env_denied _ _); now apply grows_same.
    + intros _ w2. apply (grows_for_lines (length lines) lines 0%nat).
  - assert (grows (progress_between (length lines) 0 (length lines)) w w1) as H1.
    { apply Hb.
      + rewrite open_w_run. destruct (env_denied _ _); now apply grows_same.
      + intros _ w2. apply (grows_for_lines (length lines) lines 0%nat). }
    unfold except_Exception. destruct (is_Exception e); [|exact H1].
    eapply grows_trans; [exact H1|]. now apply grows_print_exit.
Qed.

(** *** The bar *)

Lemma string_length_app (a b : string) :
  String.length (a +:+ b) = (String.length a + String.length b)%nat.
Proof.
  induction a as [|c a IH]; [reflexivity|].
  rewrite app_cons. cbn [String.length]. now rewrite IH.
Qed.

Lemma str_mul_length (s : string) (n : Z) :
  String.length (str_mul s n) = (Z.to_nat n * String.length s)%nat.
Proof.
  unfold str_mul. induction (Z.to_nat n) as [|k IH]; [reflexivity|].
  rewrite Nat.iter_succ, string_length_app, IH. lia.
Qed.

Lemma filledLength_bounds (pb : ProgressBar) (iteration : Z) :
  0 < pb_total pb -> 0 <= iteration <= pb_total pb -> 0 <= pb_length pb ->
  0 <= filledLength pb iteration <= pb_length pb.
Proof.
  intros Ht Hi Hl. unfold filledLength. split.
  - apply Z.div_pos; nia.
  - apply Z.div_le_upper_bound; nia.
Qed.

(** X15. For a positive total, a turn between 0 and the total and a fill of
    one character, [print_progress] divides without error, fills between 0
    and [length] cells, draws a bar of exactly [length] characters, and the
    bar is all fill when the turn is the total. *)
Theorem progress_bar_length (pb : ProgressBar) (iteration : Z) :
  0 < pb_total pb ->
  0 <= iteration <= pb_total pb ->
  0 <= pb_length pb ->
  String.length (pb_fill pb) = 1%nat ->
  exists bar,
    progress_bar pb iteration = Some (bar, iteration =? pb_total pb)
    /\ Z.of_nat (String.length bar) = pb_length pb
    /\ 0 <= filledLength pb iteration <= pb_length pb
    /\ (iteration = pb_total pb -> bar = str_mul (pb_fill pb) (pb_length pb)).
Proof.
  intros Ht Hi Hl Hf. unfold progress_bar.
  destruct (pb_total pb =? 0) eqn:E; [apply Z.eqb_eq in E; lia|].
  pose proof (filledLength_bounds pb iteration Ht Hi Hl) as Hb.
  eexists. split; [reflexivity|]. split; [|split; [exact Hb|]].
  - rewrite string_length_app, !str_mul_length, Hf. cbn [String.length]. lia.
  - intros ->. unfold filledLength. rewrite Z.div_mul by lia.
    rewrite Z.sub_diag. change (str_mul "-" 0) with EmptyString.
    apply string_app_nil_r.
Qed.

(** *** Stripped lines *)

Lemma lstrip_head (s : string) :
  match Py.lstrip s with
  | EmptyString => True
  | String c _ => Py.is_space c = false
  end.
Proof.
  induction s as [|c s IH]; [exact I|].
  cbn [Py.lstrip]. destruct (Py.is_space c) eqn:E; [exact IH | exact E].
Qed.

Lemma rstrip_rstrip (s : string) : Py.rstrip (Py.rstrip s) = Py.rstrip s.
Proof.
  induction s as [|c s IH]; [reflexivity|].
  cbn [Py.rstrip]. destruct (Py.is_space c && Py.is_empty (Py.rstrip s)) eqn:E;
    [reflexivity|].
  cbn [Py.rstrip]. now rewrite IH, E.
Qed.

Lemma lstrip_rstrip_head (s : string) :
  match s with
  | EmptyString => True
  | String c _ => Py.is_space c = false
  end ->
  Py.lstrip (Py.rstrip s) = Py.rstrip s.
Proof.
  destruct s as [|c s]; [reflexivity|]. intros Hc.
  cbn [Py.rstrip]. rewrite Hc. cbn [andb Py.lstrip]. now rewrite Hc.
Qed.

Lemma strip_strip (s : string) : Py.strip (Py.strip s) = Py.strip s.
Proof.
  unfold Py.strip. rewrite (lstrip_rstrip_head _ (lstrip_head s)).
  apply rstrip_rstrip.
Qed.

(** X16. The lines the loop receives are never empty and carry no
    surrounding whitespace; there is none exactly when every line of the
    order file is blank. *)
Theorem valid_lines_stripped (lines : list string) :
  Forall (fun l => Py.is_empty l = false /\ Py.strip l = l) (valid_lines lines)
  /\ (valid_lines lines = [] <-> Forall blank lines).
Proof.
  unfold valid_lines. split.
  - induction lines as [|l ls IH]; [constructor|].
    cbn [List.filter]. destruct (Py.is_empty (Py.strip l)) eqn:E; cbn [negb map];
      [exact IH|].
    constructor; [|exact IH]. split; [exact E | apply strip_strip].
  - split.
    + induction lines as [|l ls IH]; [constructor|].
      cbn [List.filter]. destruct (Py.is_empty (Py.strip l)) eqn:E; cbn [negb map];
        [|discriminate].
      intros H. constructor; [|now apply IH].
      unfold blank. now destruct (Py.strip l).
    + apply valid_lines_blank.
Qed.

(** X17. The filename [parse_line] returns carries no surrounding
    whitespace, and neither does the title when the line has a [|]. *)
Theorem parse_line_stripped (line : string) :
  Py.strip (parse_line line).1 = (parse_line line).1
  /\ (is_Some (after_bar line) ->
      Py.strip (parse_line line).2 = (parse_line line).2).
Proof.
  rewrite parse_line_bar. cbn [fst snd]. split; [apply strip_strip|].
  intros [rest ->]. apply strip_strip.
Qed.

(** *** Files that cannot be written *)

(** X18. When the manifest cannot be opened for writing, [main] exits with
    status 1 after the checks, has changed no file and has not run the
    muxer. *)
Theorem manifest_denied (w : World) :
  preflight w = true ->
  env_denied env concat_list_path = true ->
  (main w).1 = Raise (SystemExit 1)
  /\ files (main w).2 = files w
  /\ joins (main w).2 = joins w.
Proof.
  intros Hp Hden. pose proof (main_run w) as Hm. rewrite Hp in Hm.
  destruct Hm as (text & _ & ->).
  unfold pipeline, analyze, try_except.
  rewrite !bind_run, open_w_run, Hden. cbn. auto.
Qed.

(** X19. When the loop ends with at least one chapter and the metadata file
    cannot be opened for writing, the [OSError] is caught nowhere: [main]
    ends with it (exit status 1), the muxer is not run, and the files are
    as the loop left them, the manifest included. *)
Theorem metadata_denied (w : World) (text : string) (st : Loop) (w1 : World) :
  preflight w = true ->
  files w !! order_file args = Some text ->
  analyze (valid_lines (Py.readlines text))
          (emit (banner (length (valid_lines (Py.readlines text)))) w) = (Ok st, w1) ->
  chapters st <> [] ->
  env_denied env metadata_path = true ->
  (main w).1 = Raise OSError
  /\ exit_status (main w).1 = 1
  /\ joins (main w).2 = joins w
  /\ files (main w).2 = files w1
  /\ is_Some (files (main w).2 !! concat_list_path).
Proof.
  intros Hp Ht Ha Hne Hden.
  pose proof (main_run w) as Hmain. rewrite Hp in Hmain.
  destruct Hmain as (text' & Ht' & ->).
  assert (text' = text) as -> by congruence.
  rewrite (pipeline_ok _ _ _ _ Ha Hne).
  unfold join_files. rewrite bind_run, print_run, bind_run, open_w_run, Hden.
  cbn [fst snd exit_status emit files joins].
  apply analyze_ok in Ha as [_ Hr].
  destruct (opened_same (emit (banner (length (valid_lines (Py.readlines text)))) w))
    as [Hcc _].
  destruct (run_ok_effect _ _ _ _ _ _ Hr (same_files_refl _) Hcc)
    as (S1 & J1 & _).
  repeat split; auto. now apply S1.
Qed.

End Script.

(** ** Sample runs *)

(** C1: with a muxer that exits with 1, [main] on the three-file order
    prints the error and returns normally: the exit status is 0. *)
Theorem ffmpeg_failure_exit_status :
  let run := main sample_float_of_str sample_int_of_str (sample_env 1)
                  (sample_args "three.txt") sample_world in
  run.1 = Ok ()
  /\ exit_status run.1 = 0
  /\ last (stdout run.2)
     = Some (Print [FStr "Error running ffmpeg: "; FExn (CalledProcessError 1)])
  /\ length (joins run.2) = 1%nat.
Proof. vm_compute. repeat split; reflexivity. Qed.

(** C2: for two files of 44100 Hz and 48000 Hz, [main] exits with status 1
    before the muxer runs, and the manifest with the first file's line is
    still in the input directory. *)
Theorem rate_mismatch_leaves_manifest :
  let run := main sample_float_of_str sample_int_of_str (sample_env 0)
                  (sample_args "rates.txt") sample_world in
  run.1 = Raise (SystemExit 1)
  /\ joins run.2 = []
  /\ files run.2 !! "in/files_to_concat.txt" = Some ("file 'in/a.mp3'" +:+ Py.NL)
  /\ files run.2 !! "in/metadata.txt" = None.
Proof. vm_compute. repeat split; reflexivity. Qed.

(** C3, on the 10 s, 2 s and 7 s files. *)
Lemma timeline_contiguous_three :
  let run := analyze sample_float_of_str sample_int_of_str (sample_env 0)
                     (sample_args "three.txt") (sample_lines "three.txt")
                     sample_world in
  chapters (value loop_start run.1)
  = [mkChapter "a" 0 10000000000; mkChapter "Two" 10000000000 12000000000;
     mkChapter "c" 12000000000 19000000000]
  /\ contiguous (chapters (value loop_start run.1)).
Proof.
  intros run. split; [vm_compute; reflexivity|].
  apply (timeline_contiguous sample_float_of_str sample_int_of_str (sample_env 0)
           (sample_args "three.txt") (sample_lines "three.txt") sample_world
           (value loop_start run.1) run.2).
  vm_compute. reflexivity.
Defined.

(** C4, counterexample: the file of 1.001 s gets a chapter of 1000999999 ns,
    where rounding to the nearest integer gives 1001000000. *)
Lemma duration_truncated_not_rounded :
  let run := analyze sample_float_of_str sample_int_of_str (sample_env 0)
                     (sample_args "odd.txt") (sample_lines "odd.txt")
                     sample_world in
  sample_float_of_str "1.001000" = Some 0x1.004189374bc6ap+0%float
  /\ chapters (value loop_start run.1) = [mkChapter "d" 0 1000999999]
  /\ round_half_even (0x1.004189374bc6ap+0 * 1000000000)%float = Ok 1001000000.
Proof. vm_compute. repeat split; reflexivity. Qed.

(** C4 (amended), on the 10 s, 2 s and 7 s files. *)
Lemma chapters_built_three :
  let args := sample_args "three.txt" in
  let run := analyze sample_float_of_str sample_int_of_str (sample_env 0) args
                     (sample_lines "three.txt") sample_world in
  built sample_float_of_str sample_int_of_str (sample_env 0) args
        0 (List.filter (on_disk args (files (opened args sample_world)))
                       (sample_lines "three.txt"))
        (chapters (value loop_start run.1))
        (current_time_ns (value loop_start run.1))
  /\ current_time_ns (value loop_start run.1) = 19000000000.
Proof.
  intros args run. split; [|vm_compute; reflexivity].
  apply (chapters_built sample_float_of_str sample_int_of_str (sample_env 0)
           args (sample_lines "three.txt") sample_world
           (value loop_start run.1) run.2).
  vm_compute. reflexivity.
Defined.

(** C6, counterexample: the title of [a.mp3|Part|One] is [Part], not the
    text after the first bar. *)
Lemma title_stops_at_second_bar :
  parse_line "a.mp3|Part|One" = ("a.mp3", "Part")
  /\ option_map Py.strip (after_bar "a.mp3|Part|One") = Some "Part|One".
Proof. vm_compute. split; reflexivity. Qed.

(** C7, on five lines of which [zz.mp3] is not on disk. *)
Lemma missing_files_skipped_five :
  let args := sample_args "five.txt" in
  let run := analyze sample_float_of_str sample_int_of_str (sample_env 0) args
                     (sample_lines "five.txt") sample_world in
  length (sample_lines "five.txt") = 5%nat
  /\ length (chapters (value loop_start run.1)) = 4%nat
  /\ warnings (stdout run.2) = 1%nat
  /\ exit_status (main sample_float_of_str sample_int_of_str (sample_env 0) args
                       sample_world).1 = 0.
Proof.
  intros args run.
  destruct (missing_files_skipped sample_float_of_str sample_int_of_str (sample_env 0)
              args (sample_lines "five.txt") sample_world
              (value loop_start run.1) run.2)
    as (_ & _ & L & W); [vm_compute; reflexivity|].
  split; [vm_compute; reflexivity|].
  split; [rewrite L; vm_compute; reflexivity|].
  split; [rewrite W; vm_compute; reflexivity|].
  vm_compute; reflexivity.
Defined.

(** C8, counterexample: a file whose duration is 0 enters the timeline, and
    its chapter ends where it starts. *)
Lemma zero_duration_chapter :
  let args := sample_args "zero.txt" in
  let run := analyze sample_float_of_str sample_int_of_str (sample_env 0) args
                     (sample_lines "zero.txt") sample_world in
  probe sample_float_of_str sample_int_of_str (sample_env 0) "in/e.mp3"
  = Ok (mkInfo 0 44100 1)
  /\ chapters (value loop_start run.1) = [mkChapter "e" 0 0]
  /\ (main sample_float_of_str sample_int_of_str (sample_env 0) args
           sample_world).1 = Ok ().
Proof. vm_compute. repeat split; reflexivity. Qed.

(** C8 (amended), on an order file that lists [g.mp3], which has no audio
    stream. *)
Lemma missing_stream_fatal_silent :
  let run := main sample_float_of_str sample_int_of_str (sample_env 0)
                  (sample_args "silent.txt") sample_world in
  exit_status run.1 = 1 /\ joins run.2 = [].
Proof.
  intros run.
  apply (missing_stream_fatal sample_float_of_str sample_int_of_str (sample_env 0)
           (sample_args "silent.txt") sample_world
           (default EmptyString (sample_files !! "silent.txt")) "g.mp3"
           [("programs", JList []); ("streams", JList []);
            ("format", JDict [("duration", JStr "3.000000")])]).
  - vm_compute. reflexivity.
  - vm_compute. auto.
  - vm_compute. eauto.
  - vm_compute. reflexivity.
  - vm_compute. reflexivity.
Defined.

(** C9, on an order file of three blank lines. *)
Lemma blank_order_file_exits_sample :
  let run := main sample_float_of_str sample_int_of_str (sample_env 0)
                  (sample_args "blank.txt") sample_world in
  run.1 = Raise (SystemExit 1)
  /\ exit_status run.1 = 1
  /\ stdout run.2 = banner 0 ++ [Print [FStr "No valid files found to process."]]
  /\ joins run.2 = [].
Proof.
  intros run.
  apply (blank_order_file_exits sample_float_of_str sample_int_of_str (sample_env 0)
           (sample_args "blank.txt") sample_world
           (default EmptyString (sample_files !! "blank.txt"))).
  - vm_compute. reflexivity.
  - vm_compute. reflexivity.
  - vm_compute. repeat constructor.
  - reflexivity.
Defined.

(** C10, on a file whose name holds a quote. *)
Lemma manifest_lines_quote :
  let args := sample_args "quote.txt" in
  let run := analyze sample_float_of_str sample_int_of_str (sample_env 0) args
                     (sample_lines "quote.txt") sample_world in
  files run.2 !! "in/files_to_concat.txt" = Some ("file 'in/it's.mp3'" +:+ Py.NL)
  /\ count_char Py.QUOTE (manifest_line "in/it's.mp3") = 3%nat.
Proof.
  intros args run.
  destruct (manifest_lines sample_float_of_str sample_int_of_str (sample_env 0)
              args (sample_lines "quote.txt") sample_world
              (value loop_start run.1) run.2)
    as (M & _ & Q); [vm_compute; reflexivity|].
  split.
  - change "in/files_to_concat.txt" with (concat_list_path args).
    rewrite M. vm_compute. reflexivity.
  - rewrite Q. vm_compute. reflexivity.
Defined.

(** ** Sample runs for the further properties *)

(** X1, on an order file that does not exist. *)
Lemma preflight_failure_untouched_sample :
  let run := main sample_float_of_str sample_int_of_str (sample_env 0)
                  (sample_args "nope.txt") sample_world in
  run.1 = Raise (SystemExit 1)
  /\ files run.2 = sample_files
  /\ joins run.2 = [].
Proof.
  intros run.
  apply (preflight_failure_untouched sample_float_of_str sample_int_of_str
           (sample_env 0) (sample_args "nope.txt") sample_world).
  vm_compute. reflexivity.
Defined.

(** X3, on the three-file order with a muxer that exits with 1. *)
Lemma main_join_cleanup_sample :
  let run := main sample_float_of_str sample_int_of_str (sample_env 1)
                  (sample_args "three.txt") sample_world in
  run.1 = Ok ()
  /\ length (joins run.2) = 1%nat
  /\ files run.2 !! "in/files_to_concat.txt" = None
  /\ files run.2 !! "in/metadata.txt" = None
  /\ last (stdout run.2)
     = Some (Print [FStr "Error running ffmpeg: "; FExn (CalledProcessError 1)]).
Proof.
  intros run.
  pose (loop := analyze sample_float_of_str sample_int_of_str (sample_env 1)
                  (sample_args "three.txt") (sample_lines "three.txt")
                  (emit (banner (length (sample_lines "three.txt"))) sample_world)).
  destruct (main_join_cleanup sample_float_of_str sample_int_of_str (sample_env 1)
              (sample_args "three.txt") sample_world
              (default EmptyString (sample_files !! "three.txt"))
              (value loop_start loop.1) loop.2)
    as (R & J & C & M & L).
  - vm_compute. reflexivity.
  - vm_compute. reflexivity.
  - vm_compute. reflexivity.
  - vm_compute. discriminate.
  - reflexivity.
  - vm_compute. reflexivity.
  - vm_compute. reflexivity.
  - split; [exact R|]. split; [unfold run; rewrite J; reflexivity|].
    split; [exact C|]. split; [exact M|].
    unfold run. rewrite L. vm_compute. reflexivity.
Defined.

(** X4, on a directory that already holds a [metadata.txt]. *)
Lemma muxer_input_sample :
  let run := join_files sample_env2 (sample_args "one.txt")
                        [mkChapter "Intro = 1" 0 10000000000] sample_world2 in
  run.1 = Ok ()
  /\ files run.2 !! "out.m4b"
     = Some (";FFMETADATA1" +:+ Py.NL +:+ "[CHAPTER]" +:+ Py.NL
             +:+ "TIMEBASE=1/1000000000" +:+ Py.NL +:+ "START=0" +:+ Py.NL
             +:+ "END=10000000000" +:+ Py.NL +:+ "title=Intro \= 1" +:+ Py.NL)
  /\ files run.2 !! "in/metadata.txt" = None.
Proof.
  intros run.
  destruct (muxer_input sample_env2 (sample_args "one.txt")
              [mkChapter "Intro = 1" 0 10000000000] sample_world2)
    as (R & F); [reflexivity | vm_compute; reflexivity | vm_compute; reflexivity |].
  split; [exact R|]. unfold run. rewrite F.
  split; vm_compute; reflexivity.
Defined.

(** X5, X8 and X9, on the 10 s, 2 s and 7 s files. *)
Lemma joined_files_homogeneous_sample :
  let args := sample_args "three.txt" in
  let run := analyze sample_float_of_str sample_int_of_str (sample_env 0) args
                     (sample_lines "three.txt") sample_world in
  analysis_ref (value loop_start run.1) = Some (mkInfo 10 44100 1)
  /\ Forall (matches sample_float_of_str sample_int_of_str (sample_env 0) args
                     (mkInfo 10 44100 1))
            (sample_lines "three.txt").
Proof.
  intros args run.
  pose proof (joined_files_homogeneous sample_float_of_str sample_int_of_str
                (sample_env 0) args (sample_lines "three.txt") sample_world
                (value loop_start run.1) run.2) as H.
  assert (List.filter (on_disk args (files (opened args sample_world)))
                      (sample_lines "three.txt")
          = sample_lines "three.txt") as E by (vm_compute; reflexivity).
  rewrite E in H.
  change (sample_lines "three.txt") with ("a.mp3" :: ["b.mp3|Two"; "c.mp3"]) in H at 2.
  destruct H as (r & P & A & F); [vm_compute; reflexivity|].
  assert (r = mkInfo 10 44100 1) as ->.
  { vm_compute in P. now injection P as <-. }
  auto.
Defined.

Lemma chapter_titles_in_order_sample :
  let run := analyze sample_float_of_str sample_int_of_str (sample_env 0)
                     (sample_args "three.txt") (sample_lines "three.txt")
                     sample_world in
  map title (chapters (value loop_start run.1)) = ["a"; "Two"; "c"].
Proof.
  intros run.
  rewrite (chapter_titles_in_order sample_float_of_str sample_int_of_str (sample_env 0)
             (sample_args "three.txt") (sample_lines "three.txt") sample_world
             (value loop_start run.1) run.2); vm_compute; reflexivity.
Defined.

Lemma cursor_is_total_length_sample :
  let run := analyze sample_float_of_str sample_int_of_str (sample_env 0)
                     (sample_args "three.txt") (sample_lines "three.txt")
                     sample_world in
  current_time_ns (value loop_start run.1) = 19000000000
  /\ cursor (chapters (value loop_start run.1)) = 19000000000.
Proof.
  intros run.
  destruct (cursor_is_total_length sample_float_of_str sample_int_of_str (sample_env 0)
              (sample_args "three.txt") (sample_lines "three.txt") sample_world
              (value loop_start run.1) run.2) as (T & C);
    [vm_compute; reflexivity|].
  rewrite C, T. split; vm_compute; reflexivity.
Defined.

(** X6, on a mono and a stereo file. *)
Lemma mismatch_fatal_sample :
  let run := main sample_float_of_str sample_int_of_str sample_env2
                  (sample_args "stereo.txt") sample_world2 in
  exit_status run.1 = 1 /\ joins run.2 = [].
Proof.
  intros run.
  apply (mismatch_fatal sample_float_of_str sample_int_of_str sample_env2
           (sample_args "stereo.txt") sample_world2
           (default EmptyString (sample_files2 !! "stereo.txt")) "a.mp3" "s.mp3"
           (mkInfo 10 44100 1) (mkInfo 2 44100 2)).
  - vm_compute. reflexivity.
  - vm_compute. auto.
  - vm_compute. auto.
  - vm_compute. eauto.
  - vm_compute. eauto.
  - vm_compute. reflexivity.
  - vm_compute. reflexivity.
  - right. cbn. discriminate.
Defined.

(** X7, on a file for which ffprobe exits with 1. *)
Lemma probe_failure_fatal_sample :
  let run := main sample_float_of_str sample_int_of_str sample_env2
                  (sample_args "broken.txt") sample_world2 in
  exit_status run.1 = 1 /\ joins run.2 = [].
Proof.
  intros run.
  apply (probe_failure_fatal sample_float_of_str sample_int_of_str sample_env2
           (sample_args "broken.txt") sample_world2
           (default EmptyString (sample_files2 !! "broken.txt")) "h.mp3"
           (CalledProcessError 1)).
  - vm_compute. reflexivity.
  - vm_compute. auto.
  - vm_compute. eauto.
  - vm_compute. reflexivity.
Defined.

(** X11, on the sample answer of ffprobe for [a.mp3]. *)
Lemma get_file_info_first_stream_sample :
  get_file_info sample_float_of_str sample_int_of_str (sample_env 0) "in/a.mp3"
                sample_world
  = (Ok (mkInfo 10 44100 1), sample_world).
Proof.
  apply (get_file_info_first_stream sample_float_of_str sample_int_of_str (sample_env 0)
           "in/a.mp3" sample_world
           [("programs", JList []);
            ("streams", JList [JDict [("sample_rate", JStr "44100"); ("channels", JInt 1)]]);
            ("format", JDict [("duration", JStr "10.000000")])]
           [("duration", JStr "10.000000")]
           [("sample_rate", JStr "44100"); ("channels", JInt 1)] []
           (JStr "10.000000") (JStr "44100") (JInt 1)); reflexivity.
Defined.

(** X15, on the bar of [main] for 5 lines, at the second turn. *)
Lemma progress_bar_length_sample :
  progress_bar (main_progress_bar 5 "#") 2
  = Some ("################------------------------", false)
  /\ exists bar,
       progress_bar (main_progress_bar 5 "#") 2 = Some (bar, false)
       /\ Z.of_nat (String.length bar) = 40
       /\ 0 <= filledLength (main_progress_bar 5 "#") 2 <= 40
       /\ (2 = 5 -> bar = str_mul "#" 40).
Proof.
  split; [vm_compute; reflexivity|].
  apply (progress_bar_length (main_progress_bar 5 "#") 2);
    [reflexivity | cbn; lia | cbn; lia | reflexivity].
Defined.

(** X18, with a manifest that cannot be opened. *)
Lemma manifest_denied_sample :
  let run := main sample_float_of_str sample_int_of_str
                  (sample_env_denied "in/files_to_concat.txt")
                  (sample_args "three.txt") sample_world in
  run.1 = Raise (SystemExit 1)
  /\ files run.2 = sample_files
  /\ joins run.2 = [].
Proof.
  intros run.
  apply (manifest_denied sample_float_of_str sample_int_of_str
           (sample_env_denied "in/files_to_concat.txt")
           (sample_args "three.txt") sample_world);
    vm_compute; reflexivity.
Defined.

(** X19, with a metadata file that cannot be opened. *)
Lemma metadata_denied_sample :
  let run := main sample_float_of_str sample_int_of_str
                  (sample_env_denied "in/metadata.txt")
                  (sample_args "three.txt") sample_world in
  run.1 = Raise OSError
  /\ joins run.2 = []
  /\ files run.2 !! "in/files_to_concat.txt"
     = Some ("file 'in/a.mp3'" +:+ Py.NL +:+ "file 'in/b.mp3'" +:+ Py.NL
             +:+ "file 'in/c.mp3'" +:+ Py.NL).
Proof.
  intros run.
  pose (loop := analyze sample_float_of_str sample_int_of_str
                  (sample_env_denied "in/metadata.txt")
                  (sample_args "three.txt") (sample_lines "three.txt")
                  (emit (banner (length (sample_lines "three.txt"))) sample_world)).
  destruct (metadata_denied sample_float_of_str sample_int_of_str
              (sample_env_denied "in/metadata.txt")
              (sample_args "three.txt") sample_world
              (default EmptyString (sample_files !! "three.txt"))
              (value loop_start loop.1) loop.2)
    as (R & _ & J & F & _).
  - vm_compute. reflexivity.
  - vm_compute. reflexivity.
  - vm_compute. reflexivity.
  - vm_compute. discriminate.
  - vm_compute. reflexivity.
  - split; [exact R|]. split; [exact J|].
    unfold run. rewrite F. vm_compute. reflexivity.
Defined.
